(** * Time management of the search: [timeman.cpp]

    A shallow embedding of the two revisions of the time manager that the
    repository carries:

    - [src/timeman.cpp]                      (module [Timeman]),
    - the second copy of the same file        (module [Part000]),

    and the properties of [TimeManagement::init], [clear] and
    [advance_nodes_time] that the specification states about them.

    Integers are [Z] with the 32/64-bit wrap-around written out; [double]
    is the kernel's binary64 [float], whose [+ - * /] are the IEEE-754
    operations the C++ code performs (reasoned about through the
    standard library's specification of them on [spec_float]).
    [std::log10] and [std::pow] come from the C library and are a
    parameter ([Libm]) of [init]. *)

From Stdlib Require Import ZArith Bool List Lia.
From Stdlib Require Import PrimFloat FloatOps SpecFloat.
From Stdlib Require FloatAxioms Uint63.
Import ListNotations.

Set Warnings "-inexact-float".
Local Open Scope Z_scope.

(* ================================================================== *)
(** ** Machine integers *)

Module Int.

Definition min_int64 : Z := - 2 ^ 63.
Definition max_int64 : Z := 2 ^ 63 - 1.
Definition min_int32 : Z := - 2 ^ 31.
Definition max_int32 : Z := 2 ^ 31 - 1.

Definition in_int64 (z : Z) : Prop := min_int64 <= z <= max_int64.
Definition in_int32 (z : Z) : Prop := min_int32 <= z <= max_int32.

(** Two's-complement wrap-around.  Signed overflow is undefined in C++;
    the model follows what the compiled arithmetic instruction does. *)
Definition wrap64 (z : Z) : Z := (z + 2 ^ 63) mod 2 ^ 64 - 2 ^ 63.
Definition wrap32 (z : Z) : Z := (z + 2 ^ 31) mod 2 ^ 32 - 2 ^ 31.

Definition add64 (a b : Z) : Z := wrap64 (a + b).
Definition sub64 (a b : Z) : Z := wrap64 (a - b).
Definition mul64 (a b : Z) : Z := wrap64 (a * b).
(** [/] on integers truncates towards zero. *)
Definition div64 (a b : Z) : Z := wrap64 (Z.quot a b).

Definition add32 (a b : Z) : Z := wrap32 (a + b).
Definition sub32 (a b : Z) : Z := wrap32 (a - b).
Definition mul32 (a b : Z) : Z := wrap32 (a * b).

End Int.
Import Int.

(* ================================================================== *)
(** ** Doubles *)

Module Double.

Definition double : Type := float.

(** Integer to [double]: the nearest binary64 value, ties to even. *)
Definition of_int (z : Z) : double :=
  SF2Prim (binary_normalize prec emax z 0 false).

(** The integer part of a finite [double] (rounding towards zero). *)
Definition truncate (x : double) : option Z :=
  match Prim2SF x with
  | S754_zero _ => Some 0
  | S754_finite s m e =>
      let a := match e with
               | Zneg p => Z.shiftr (Zpos m) (Zpos p)
               | _ => Z.shiftl (Zpos m) e
               end in
      Some (if s then - a else a)
  | S754_infinity _ | S754_nan => None
  end.

(** [TimePoint(x)] / [static_cast<int>(x)] on a [double].  A NaN, an
    infinity or a value outside the target type is undefined in C++; the
    model returns the "integer indefinite" value that the x86-64
    conversion instruction produces. *)
Definition to_int64 (x : double) : Z :=
  match truncate x with
  | Some z => if (min_int64 <=? z) && (z <=? max_int64) then z else min_int64
  | None => min_int64
  end.

Definition to_int32 (x : double) : Z :=
  match truncate x with
  | Some z => if (min_int32 <=? z) && (z <=? max_int32) then z else min_int32
  | None => min_int32
  end.

(** [std::min(a, b)] is [(b < a) ? b : a], [std::max(a, b)] is
    [(a < b) ? b : a]; on doubles the comparison is false on a NaN. *)
Definition std_min (a b : double) : double := if (b <? a)%float then b else a.
Definition std_max (a b : double) : double := if (a <? b)%float then b else a.

End Double.
Import Double.

(** The two functions of [<cmath>] that [init] calls. *)
Record Libm : Type := mkLibm {
  log10 : double -> double;
  pow : double -> double -> double
}.

(* ================================================================== *)
(** ** A reference C library

    [log10] and [pow] evaluated in fixed-point arithmetic with 128
    fractional bits and rounded once to binary64.  It is one admissible
    [Libm], used to run [init] on concrete positions; the theorems below
    hold for every [Libm]. *)

Module RefLibm.

Definition fbits : Z := 128.
Definition fone : Z := 2 ^ fbits.

(** [sum_odd t z2 k n] adds [t/k + t*z2/(k+2) + t*z2^2/(k+4) + ...],
    [n] terms, in fixed point. *)
Fixpoint sum_odd (t z2 k : Z) (n : nat) : Z :=
  match n with
  | O => 0
  | S n' => t / k + sum_odd (t * z2 / fone) z2 (k + 2) n'
  end.

(** [atanh (a / b)] for [0 <= a/b <= 1/3], in fixed point. *)
Definition atanh_frac (a b : Z) : Z :=
  let z := a * fone / b in
  sum_odd z (z * z / fone) 1 48.

Definition ln2 : Z := Eval vm_compute in 2 * atanh_frac 1 3.

(** Natural logarithm of [m * 2^e], [m > 0], in fixed point. *)
Definition ln_pos (m : positive) (e : Z) : Z :=
  let d := Z.log2 (Zpos m) in
  let h := 2 ^ d in
  (e + d) * ln2 + 2 * atanh_frac (Zpos m - h) (Zpos m + h).

Definition ln10 : Z := Eval vm_compute in ln_pos 5 1.

Definition of_fixed (s : bool) (v : Z) (e : Z) : double :=
  SF2Prim (binary_normalize prec emax (if s then - v else v) (e - fbits) false).

Definition log10 (x : double) : double :=
  match Prim2SF x with
  | S754_nan => nan
  | S754_zero _ => neg_infinity
  | S754_infinity s => if s then nan else infinity
  | S754_finite true _ _ => nan
  | S754_finite false m e =>
      let l := ln_pos m e in
      of_fixed (l <? 0) (Z.abs l * fone / ln10) 0
  end.

(** [sum_exp t r k n] adds [t + t*r/k + t*r^2/(k(k+1)) + ...]. *)
Fixpoint sum_exp (t r k : Z) (n : nat) : Z :=
  match n with
  | O => 0
  | S n' => t + sum_exp (t * r / fone / k) r (k + 1) n'
  end.

(** [exp t] for a fixed-point [t]: [2^q * exp r] with [0 <= r < ln 2]. *)
Definition exp_fixed (t : Z) : double :=
  let q := t / ln2 in
  let r := t mod ln2 in
  of_fixed false (sum_exp fone r 1 40) q.

(** [pow x y] for a positive finite [x] and a finite [y].  Every other
    pair of arguments is mapped to NaN, which is what the C library
    returns for a negative base with a fractional exponent (the only
    such case [init] can produce). *)
Definition pow (x y : double) : double :=
  match Prim2SF x, Prim2SF y with
  | S754_finite false m e, S754_zero _ => one
  | S754_finite false m e, S754_finite sy my ey =>
      let l := ln_pos m e in
      let p := Z.shiftl (Zpos my * l) ey in
      exp_fixed (if sy then - p else p)
  | _, _ => nan
  end.

Definition libm : Libm := mkLibm log10 pow.

End RefLibm.

(* ================================================================== *)
(** ** Data model *)

Inductive Color : Type := WHITE | BLACK.

(** An array indexed by [Color] ([T x[COLOR_NB]]). *)
Record ByColor : Type := mkByColor { white : Z; black : Z }.

Definition get (a : ByColor) (c : Color) : Z :=
  match c with WHITE => white a | BLACK => black a end.

Definition set (a : ByColor) (c : Color) (v : Z) : ByColor :=
  match c with
  | WHITE => mkByColor v (black a)
  | BLACK => mkByColor (white a) v
  end.

(** Modelled from the spec: [Search::LimitsType] is declared in
    [search.h], which is not among the sources.  The record keeps the
    fields that the time manager reads or writes: per side the remaining
    time and the increment ([TimePoint], a 64-bit integer), the node
    rate, the start timestamp, and moves-to-go (an [int], 0 when not
    specified). *)
Record LimitsType : Type := mkLimits {
  time : ByColor;
  inc : ByColor;
  npmsec : Z;
  startTime : Z;
  movestogo : Z
}.

(** Modelled from the spec: the three entries of the [OptionsMap]
    ([ucioption.h], not among the sources) that [init] looks up:
    [options["nodestime"]], [options["Move Overhead"]] and
    [options["Ponder"]]. *)
Record OptionsMap : Type := mkOptions {
  nodestime : Z;
  Move_Overhead : Z;
  Ponder : bool
}.

(** Modelled from the spec: the data members of [class TimeManagement]
    ([timeman.h], not among the sources).  [availableNodes] is -1 while
    the node budget of the game has not been seeded. *)
Record TimeManagement : Type := mkTM {
  tm_startTime : Z;
  optimumTime : Z;
  maximumTime : Z;
  availableNodes : Z;
  useNodesTime : bool
}.

(** What a call of [init] leaves behind: the object itself and the two
    arguments it takes by non-const reference. *)
Record InitResult : Type := mkResult {
  tm : TimeManagement;
  limits : LimitsType;
  originalTimeAdjust : double
}.

(* ================================================================== *)
(** ** The members that both revisions define alike *)

Definition optimum (t : TimeManagement) : Z := optimumTime t.
Definition maximum (t : TimeManagement) : Z := maximumTime t.

Definition clear (t : TimeManagement) : TimeManagement :=
  mkTM (tm_startTime t) (optimumTime t) (maximumTime t) (-1) (useNodesTime t).

(** [assert(useNodesTime)] fails the call ([None]) when node-time
    emulation is off. *)
Definition advance_nodes_time (nodes : Z) (t : TimeManagement)
  : option TimeManagement :=
  if useNodesTime t
  then Some (mkTM (tm_startTime t) (optimumTime t) (maximumTime t)
                  (Z.max 0 (sub64 (availableNodes t) nodes))
                  (useNodesTime t))
  else None.

(** A run of [advance_nodes_time] calls, in order. *)
Fixpoint advance_run (ns : list Z) (t : TimeManagement)
  : option TimeManagement :=
  match ns with
  | [] => Some t
  | n :: ns' =>
      match advance_nodes_time n t with
      | Some t' => advance_run ns' t'
      | None => None
      end
  end.

(* ================================================================== *)
(** ** The steps of [init] that both revisions compute alike *)

Section Steps.

Variable libm : Libm.

(** The block guarded by [if (useNodesTime)]: seed the node budget on
    the first call of the game, then rewrite the limits in node units. *)
Definition nodes_time_block (npmsec_ : Z) (us : Color)
    (avail : Z) (l : LimitsType) : Z * LimitsType :=
  let avail' := if avail =? -1 then mul64 npmsec_ (get (time l) us) else avail in
  (avail',
   mkLimits (set (time l) us avail')
            (set (inc l) us (mul64 (get (inc l) us) npmsec_))
            npmsec_
            (startTime l)
            (movestogo l)).

(** [limits.movestogo ? std::min(limits.movestogo * 100, 5000) : 5051],
    reduced to [int(scaledTime * 5.051)] below one second. *)
Definition centiMTG_base (mtg : Z) : Z :=
  if mtg =? 0 then 5051 else Z.min (mul32 mtg 100) 5000.

Definition centiMTG_of (mtg scaledTime : Z) : Z :=
  if scaledTime <? 1000
  then Z.min (centiMTG_base mtg) (to_int32 (of_int scaledTime * 5.051)%float)
  else centiMTG_base mtg.

(** [std::max(TimePoint(1), limits.time[us] + (limits.inc[us] * (centiMTG - 100)
                         - moveOverhead * (200 + centiMTG)) / 100)] *)
Definition timeLeft_of (l : LimitsType) (us : Color)
    (centiMTG moveOverhead : Z) : Z :=
  Z.max 1
    (add64 (get (time l) us)
       (div64 (sub64 (mul64 (get (inc l) us) (sub32 centiMTG 100))
                     (mul64 moveOverhead (add32 200 centiMTG)))
              100)).

(** [if (originalTimeAdjust < 0)
       originalTimeAdjust = 0.3128 * std::log10(timeLeft) - 0.4354;] *)
Definition adjust (ota : double) (timeLeft : Z) : double :=
  if (ota <? 0)%float
  then (0.3128 * log10 libm (of_int timeLeft) - 0.4354)%float
  else ota.

(** The moves-to-go branch: [(optScale, maxScale)]. *)
Definition scales_movestogo (l : LimitsType) (us : Color)
    (ply centiMTG timeLeft : Z) : double * double :=
  let movesToGo := (of_int centiMTG / 100.0)%float in
  (std_min ((0.88 + of_int ply / 116.4) / movesToGo)
           (0.88 * of_int (get (time l) us) / of_int timeLeft),
   1.3 + 0.11 * movesToGo)%float.

(** [if (options["Ponder"]) optimumTime += optimumTime / 4;] *)
Definition ponder_adjust (options : OptionsMap) (opt : Z) : Z :=
  if Ponder options then add64 opt (div64 opt 4) else opt.

End Steps.

(** The locals of [init] from [npmsec] to [timeLeft].  Both revisions
    compute them by the same expressions once the remaining time of the
    side to move is nonzero. *)
Record Locals : Type := mkLocals {
  loc_npmsec : Z;
  loc_useNodesTime : bool;
  loc_scaleFactor : Z;
  loc_availableNodes : Z;
  loc_limits : LimitsType;
  loc_moveOverhead : Z;
  loc_scaledTime : Z;
  loc_centiMTG : Z;
  loc_timeLeft : Z
}.

Definition locals (t : TimeManagement) (l : LimitsType) (us : Color)
    (options : OptionsMap) : Locals :=
  let npmsec_ := nodestime options in
  let use := negb (npmsec_ =? 0) in
  let moveOverhead := Move_Overhead options in
  let scaleFactor := if use then npmsec_ else 1 in
  let '(avail, l1) :=
    if use then nodes_time_block npmsec_ us (availableNodes t) l
    else (availableNodes t, l) in
  let scaledTime := div64 (get (time l1) us) scaleFactor in
  let centiMTG := centiMTG_of (movestogo l1) scaledTime in
  let timeLeft := timeLeft_of l1 us centiMTG moveOverhead in
  mkLocals npmsec_ use scaleFactor avail l1 moveOverhead
           scaledTime centiMTG timeLeft.

(* ================================================================== *)
(** ** [src/timeman.cpp] *)

Module Timeman.

Section Init.

Variable libm : Libm.

Definition LOG_10_1000 : double := log10 libm 1000.0%float.
Definition BASE_OPT_CONSTANT : double := 0.0032116%float.
Definition OPT_CONSTANT_FACTOR : double := 0.000321123%float.
Definition MAX_OPT_CONSTANT : double := 0.00508017%float.
Definition BASE_MAX_CONSTANT : double := 3.3977%float.
Definition MAX_CONSTANT_FACTOR : double := 3.03950%float.
Definition MIN_MAX_CONSTANT : double := 2.94761%float.

Record TimeConstants : Type := mkTimeConstants {
  optConstant : double;
  maxConstant : double;
  timeLeftFactor : double
}.

(** The constructor of [struct TimeConstants]. *)
Definition TimeConstants_new (logTimeInSec : double) (timeLeft totalTime : Z)
  : TimeConstants :=
  mkTimeConstants
    (std_min (BASE_OPT_CONSTANT + OPT_CONSTANT_FACTOR * logTimeInSec)%float
             MAX_OPT_CONSTANT)
    (std_max (BASE_MAX_CONSTANT + MAX_CONSTANT_FACTOR * logTimeInSec)%float
             MIN_MAX_CONSTANT)
    (of_int totalTime / of_int timeLeft)%float.

(** The sudden-death branch: [(optScale, maxScale)], given the adjusted
    [originalTimeAdjust]. *)
Definition scales_sudden_death (L : Locals) (us : Color) (ply : Z)
    (ota : double) : double * double :=
  let tc := TimeConstants_new
              (log10 libm (of_int (loc_scaledTime L)) - LOG_10_1000)%float
              (loc_timeLeft L) (get (time (loc_limits L)) us) in
  (std_min (0.0121431 + pow libm (of_int ply + 2.94693) 0.461073 * optConstant tc)
           (0.213035 * timeLeftFactor tc) * ota,
   std_min 6.67704 (maxConstant tc + of_int ply / 11.9847))%float.

(** [if (!limits.movestogo) { ... } else { ... }] *)
Definition scales (L : Locals) (us : Color) (ply : Z) (ota : double)
  : double * double :=
  if movestogo (loc_limits L) =? 0
  then scales_sudden_death L us ply ota
  else scales_movestogo (loc_limits L) us ply (loc_centiMTG L) (loc_timeLeft L).

(** The final time bounds: [optimumTime] before the ponder adjustment,
    and [maximumTime]. *)
Definition bounds (L : Locals) (us : Color) (optScale maxScale : double)
  : Z * Z :=
  let time_us := get (time (loc_limits L)) us in
  let optimumTime_ := to_int64 (optScale * of_int (loc_timeLeft L))%float in
  let maximumTime_ :=
    sub64 (to_int64 (std_min (0.825179 * of_int time_us
                                - of_int (loc_moveOverhead L))
                             (maxScale * of_int optimumTime_))%float)
          10 in
  let maxCap := to_int64 (0.20 * of_int time_us)%float in
  (optimumTime_, Z.max 1 (Z.min maximumTime_ maxCap)).

Definition init (t : TimeManagement) (l : LimitsType) (us : Color)
    (ply : Z) (options : OptionsMap) (ota : double) : InitResult :=
  let npmsec_ := nodestime options in
  let use := negb (npmsec_ =? 0) in
  if get (time l) us =? 0
  then mkResult (mkTM (startTime l) (optimumTime t) (maximumTime t)
                      (availableNodes t) use)
                l ota
  else
    let L := locals t l us options in
    let ota' :=
      if movestogo (loc_limits L) =? 0
      then adjust libm ota (loc_timeLeft L) else ota in
    let '(optScale, maxScale) := scales L us ply ota' in
    let '(optimumTime_, maximumTime_) := bounds L us optScale maxScale in
    mkResult (mkTM (startTime l)
                   (ponder_adjust options optimumTime_)
                   maximumTime_
                   (loc_availableNodes L)
                   use)
             (loc_limits L) ota'.

End Init.

End Timeman.

(* ================================================================== *)
(** ** The second copy of [timeman.cpp] *)

Module Part000.

Section Init.

Variable libm : Libm.

(** The sudden-death branch: [(optScale, maxScale)], given the adjusted
    [originalTimeAdjust]. *)
Definition scales_sudden_death (L : Locals) (us : Color) (ply : Z)
    (ota : double) : double * double :=
  let logTimeInSec := log10 libm (of_int (loc_scaledTime L) / 1000.0)%float in
  let optConstant :=
    std_min (0.0032116 + 0.000321123 * logTimeInSec)%float 0.00508017%float in
  let maxConstant :=
    std_max (3.3977 + 3.03950 * logTimeInSec)%float 2.94761%float in
  let timeLeftFactor :=
    (of_int (get (time (loc_limits L)) us) / of_int (loc_timeLeft L))%float in
  (std_min (0.0121431 + pow libm (of_int ply + 2.94693) 0.461073 * optConstant)
           (0.213035 * timeLeftFactor) * ota,
   std_min 6.67704 (maxConstant + of_int ply / 11.9847))%float.

(** [if (!limits.movestogo) { ... } else { ... }] *)
Definition scales (L : Locals) (us : Color) (ply : Z) (ota : double)
  : double * double :=
  if movestogo (loc_limits L) =? 0
  then scales_sudden_death L us ply ota
  else scales_movestogo (loc_limits L) us ply (loc_centiMTG L) (loc_timeLeft L).

(** The lambda [calculateBounds]; its first parameter is not used. *)
Definition calculateBounds (L : Locals) (us : Color) (optScale : double)
    (time_ : Z) (scale : double) : Z :=
  Z.max 1
    (Z.min (to_int64 (scale * of_int (get (time (loc_limits L)) us))%float)
           (to_int64 (optScale * of_int (loc_timeLeft L))%float)).

(** The final time bounds: [optimumTime] before the ponder adjustment,
    and [maximumTime]. *)
Definition bounds (L : Locals) (us : Color) (optScale maxScale : double)
  : Z * Z :=
  let time_us := get (time (loc_limits L)) us in
  let optimumTime_ :=
    calculateBounds L us optScale (loc_timeLeft L) 0.20%float in
  let maximumTime_ :=
    Z.max optimumTime_
      (Z.min (to_int64 (0.30 * of_int time_us)%float)
             (to_int64 (std_min (0.825179 * of_int time_us
                                   - of_int (loc_moveOverhead L))
                                (maxScale * of_int optimumTime_))%float)) in
  (optimumTime_, maximumTime_).

Definition init (t : TimeManagement) (l : LimitsType) (us : Color)
    (ply : Z) (options : OptionsMap) (ota : double) : InitResult :=
  if get (time l) us =? 0
  then mkResult (mkTM (startTime l) (optimumTime t) (maximumTime t)
                      (availableNodes t) false)
                l ota
  else
    let L := locals t l us options in
    let ota' :=
      if movestogo (loc_limits L) =? 0
      then adjust libm ota (loc_timeLeft L) else ota in
    let '(optScale, maxScale) := scales L us ply ota' in
    let '(optimumTime_, maximumTime_) := bounds L us optScale maxScale in
    mkResult (mkTM (startTime l)
                   (ponder_adjust options optimumTime_)
                   maximumTime_
                   (loc_availableNodes L)
                   (loc_useNodesTime L))
             (loc_limits L) ota'.

End Init.

(** The free function [calculateTimeBounds]: the two references it
    assigns are returned as a pair, [(optimumTime, maximumTime)]; their
    incoming values are not read. *)
Definition calculateTimeBounds (timeLeft totalTime : Z)
    (optScale maxScale : double) (moveOverhead : Z) : Z * Z :=
  let optimumTime_ := to_int64 (optScale * of_int timeLeft)%float in
  let optimumTime_ :=
    Z.max 1 (Z.min optimumTime_ (to_int64 (0.20 * of_int totalTime)%float)) in
  let baseMaxTime :=
    to_int64 (0.825179 * of_int totalTime - of_int moveOverhead)%float in
  let maximumTime_ :=
    Z.min baseMaxTime (to_int64 (maxScale * of_int optimumTime_)%float) in
  let maximumTime_ :=
    Z.max 1
      (Z.max optimumTime_
         (Z.min maximumTime_ (to_int64 (0.30 * of_int totalTime)%float))) in
  (optimumTime_, maximumTime_).

End Part000.

(* ================================================================== *)
(** ** A game: consecutive calls of [init] *)

(** The arguments of one call of [init] that the caller chooses afresh
    for every move. *)
Record Call : Type := mkCall {
  call_limits : LimitsType;
  call_us : Color;
  call_ply : Z;
  call_options : OptionsMap
}.

Definition InitFn : Type :=
  TimeManagement -> LimitsType -> Color -> Z -> OptionsMap -> double -> InitResult.

(** The time manager and the calibration scalar live across the moves of
    a game; the limits are rebuilt by the caller for each move. *)
Definition play_move (init : InitFn) (s : TimeManagement * double) (c : Call)
  : TimeManagement * double :=
  let r := init (fst s) (call_limits c) (call_us c) (call_ply c)
                (call_options c) (snd s) in
  (tm r, originalTimeAdjust r).

Definition play (init : InitFn) (cs : list Call) (s : TimeManagement * double)
  : TimeManagement * double :=
  fold_left (play_move init) cs s.

Definition with_Ponder (b : bool) (o : OptionsMap) : OptionsMap :=
  mkOptions (nodestime o) (Move_Overhead o) b.

(* ================================================================== *)
(** ** Concrete positions used in the examples below *)

Module Sample.

(** A freshly constructed time manager, and a negative
    [originalTimeAdjust], which stands for "not yet computed". *)
Definition fresh : TimeManagement := mkTM 0 0 0 (-1) false.
Definition unset : double := (-1)%float.

(** Limits with the same clock for both sides. *)
Definition clock (time_ms inc_ms mtg : Z) : LimitsType :=
  mkLimits (mkByColor time_ms time_ms) (mkByColor inc_ms inc_ms) 0 0 mtg.

(** Options: node rate, move overhead, ponder. *)
Definition uci (nodes_per_ms overhead : Z) (ponder : bool) : OptionsMap :=
  mkOptions nodes_per_ms overhead ponder.

End Sample.

(* ================================================================== *)
(** ** Vocabulary of the statements *)

(** [originalTimeAdjust] after the call. *)
Definition next_adjust (libm : Libm) (L : Locals) (ota : double) : double :=
  if movestogo (loc_limits L) =? 0
  then adjust libm ota (loc_timeLeft L) else ota.

(** What switching Ponder on changes, [on] and [off] being the results
    of the same call with the option on and off. *)
Definition ponder_effect (on off : InitResult) : Prop :=
  let o := optimum (tm off) in
  optimum (tm on) = add64 o (div64 o 4) /\
  maximum (tm on) = maximum (tm off) /\
  (0 <= o <= 2 ^ 62 ->
     optimum (tm on) = o + o / 4 /\
     (o < optimum (tm on) <-> 4 <= o) /\
     (4 * optimum (tm on) = 5 * o <-> o mod 4 = 0)).

(** The node budget after the first [init] of a game, seen from the
    state [t1] that [init] leaves. *)
Definition node_budget (t1 : TimeManagement) (rate remaining : Z) : Prop :=
  availableNodes t1 = rate * remaining /\
  forall ns : list Z,
  exists s, advance_run ns t1 = Some s /\
    (ns <> [] -> 0 <= availableNodes s) /\
    forall n : Z,
    exists s', advance_nodes_time n s = Some s' /\
      (0 <= n < availableNodes s ->
         availableNodes s' = availableNodes s - n) /\
      (availableNodes s <= n -> in_int64 (availableNodes s - n) ->
         availableNodes s' = 0) /\
      0 <= availableNodes s'.

(** When [init] writes [originalTimeAdjust]. *)
Definition adjust_policy (libm : Libm) (init : InitFn) : Prop :=
  (forall t l us ply options ota,
     (ota <? 0)%float = false ->
     originalTimeAdjust (init t l us ply options ota) = ota) /\
  (forall t l us ply options ota,
     movestogo l <> 0 \/ get (time l) us = 0 ->
     originalTimeAdjust (init t l us ply options ota) = ota) /\
  (forall t l us ply options ota,
     get (time l) us <> 0 -> movestogo l = 0 -> (ota <? 0)%float = true ->
     originalTimeAdjust (init t l us ply options ota)
       = (0.3128 * log10 libm (of_int (loc_timeLeft (locals t l us options)))
          - 0.4354)%float) /\
  (forall cs s,
     (snd s <? 0)%float = false -> snd (play init cs s) = snd s).

(** The other side. *)
Definition other (c : Color) : Color :=
  match c with WHITE => BLACK | BLACK => WHITE end.

(** The nodes consumed by a run of [advance_nodes_time] calls. *)
Definition nodes_spent (ns : list Z) : Z := fold_right Z.add 0 ns.

(** A node count that a search reports: not negative, 64-bit. *)
Definition node_count (n : Z) : Prop := 0 <= n <= max_int64.

(** The fields of a result on which the two revisions always agree. *)
Definition same_bookkeeping (a b : InitResult) : Prop :=
  limits a = limits b /\
  originalTimeAdjust a = originalTimeAdjust b /\
  availableNodes (tm a) = availableNodes (tm b) /\
  tm_startTime (tm a) = tm_startTime (tm b).

(** What [init] does to the limits and to the node budget when node-time
    emulation is on, [r] being the result of the call. *)
Definition rewritten_in_nodes (t : TimeManagement) (l : LimitsType)
    (us : Color) (rate : Z) (r : InitResult) : Prop :=
  let budget :=
    if availableNodes t =? -1 then mul64 rate (get (time l) us)
    else availableNodes t in
  availableNodes (tm r) = budget /\
  get (time (limits r)) us = budget /\
  get (inc (limits r)) us = mul64 (get (inc l) us) rate /\
  npmsec (limits r) = rate /\
  get (time (limits r)) (other us) = get (time l) (other us) /\
  get (inc (limits r)) (other us) = get (inc l) (other us) /\
  movestogo (limits r) = movestogo l /\
  startTime (limits r) = startTime l.

(** What the second [init] of a game finds, [t1] being the time manager
    after the first one. *)
Definition unused_budget_seen (init : InitFn) (t1 : TimeManagement)
    (ns : list Z) (l2 : LimitsType) (us : Color) (ply2 : Z)
    (options : OptionsMap) (ota2 : double) (left : Z) : Prop :=
  exists t2,
    advance_run ns t1 = Some t2 /\
    get (time (limits (init t2 l2 us ply2 options ota2))) us = left /\
    availableNodes (tm (init t2 l2 us ply2 options ota2)) = left.

(* ================================================================== *)
(** ** Arithmetic of the machine integers *)

Lemma wrap64_small z : in_int64 z -> wrap64 z = z.
Proof.
  unfold in_int64, min_int64, max_int64, wrap64. intros H.
  rewrite Z.mod_small; lia.
Qed.

Lemma wrap64_in_int64 z : in_int64 (wrap64 z).
Proof.
  unfold in_int64, min_int64, max_int64, wrap64.
  pose proof (Z.mod_pos_bound (z + 2 ^ 63) (2 ^ 64) ltac:(lia)). lia.
Qed.

Lemma wrap32_small z : in_int32 z -> wrap32 z = z.
Proof.
  unfold in_int32, min_int32, max_int32, wrap32. intros H.
  rewrite Z.mod_small; lia.
Qed.

(* ================================================================== *)
(** ** Rounding of binary64 products

    The primitive operations are specified by the standard library on
    [spec_float]; the lemmas below bound [c * double(t)] from above,
    which is what the percentage caps of [init] need. *)

(** One step of the rounding shifter halves a non-negative mantissa. *)
Lemma shr_1_half mrs : 0 <= shr_m mrs -> shr_m (shr_1 mrs) = shr_m mrs / 2.
Proof.
  destruct mrs as [m r s]. cbn [shr_m]. intros Hm.
  rewrite <- Z.div2_div.
  destruct m as [|[p|p|]|p]; try reflexivity. lia.
Qed.

Lemma iter_shr_1 p : forall mrs,
  0 <= shr_m mrs -> shr_m (iter_pos shr_1 p mrs) = shr_m mrs / 2 ^ Zpos p.
Proof.
  induction p as [p IH|p IH|]; intros mrs Hm; cbn [iter_pos].
  - assert (H1 : 0 <= shr_m (shr_1 mrs))
      by (rewrite shr_1_half by assumption; apply Z.div_pos; lia).
    assert (H2 : 0 <= shr_m (iter_pos shr_1 p (shr_1 mrs)))
      by (rewrite IH by assumption; apply Z.div_pos; lia).
    rewrite IH, IH, shr_1_half by assumption.
    rewrite !Z.div_div by lia. f_equal.
    rewrite Pos2Z.inj_xI, Z.pow_add_r, <- Z.pow_twice_r by lia. lia.
  - assert (H2 : 0 <= shr_m (iter_pos shr_1 p mrs))
      by (rewrite IH by assumption; apply Z.div_pos; lia).
    rewrite IH, IH by assumption.
    rewrite Z.div_div by lia. f_equal.
    rewrite Pos2Z.inj_xO, <- Z.pow_twice_r. lia.
  - apply shr_1_half. assumption.
Qed.

(** [shr] by [n] places divides the mantissa by [2^n], adds [n] to the
    exponent, and does nothing for [n <= 0]. *)
Lemma shr_spec mrs e n :
  0 <= shr_m mrs ->
  shr_m (fst (shr mrs e n)) = shr_m mrs / 2 ^ Z.max 0 n /\
  snd (shr mrs e n) = e + Z.max 0 n /\
  (n <= 0 -> fst (shr mrs e n) = mrs).
Proof.
  intros Hm. unfold shr. destruct n as [|p|p]; cbn [fst snd].
  - rewrite Z.div_1_r. repeat split; lia.
  - rewrite iter_shr_1 by assumption.
    replace (Z.max 0 (Z.pos p)) with (Z.pos p) by lia. repeat split; lia.
  - replace (Z.max 0 (Z.neg p)) with 0 by lia.
    rewrite Z.div_1_r. repeat split; lia.
Qed.

Lemma round_nearest_even_bounds q l :
  q <= round_nearest_even q l <= q + 1.
Proof.
  unfold round_nearest_even. destruct l as [|[]]; try destruct (Z.even q); lia.
Qed.

(** A positive with [d] binary digits is at least [2^(d-1)]. *)
Lemma digits2_pos_lower M : 2 ^ (Zpos (digits2_pos M) - 1) <= Zpos M.
Proof.
  induction M as [M IH|M IH|]; cbn [digits2_pos].
  - rewrite Pos2Z.inj_succ.
    replace (Z.succ (Z.pos (digits2_pos M)) - 1)
      with (Z.succ (Z.pos (digits2_pos M) - 1)) by lia.
    rewrite Z.pow_succ_r by lia. lia.
  - rewrite Pos2Z.inj_succ.
    replace (Z.succ (Z.pos (digits2_pos M)) - 1)
      with (Z.succ (Z.pos (digits2_pos M) - 1)) by lia.
    rewrite Z.pow_succ_r by lia. lia.
  - cbn. lia.
Qed.

(** Rounding a positive [M * 2^E] to binary64 raises it by at most one
    part in [2^52] (there is no underflow for [E >= -1000]). *)
Lemma binary_round_aux_upper M E :
  -1000 <= E ->
  match binary_round_aux prec emax false (Zpos M) E loc_Exact with
  | S754_finite false m e =>
      E <= e /\ Zpos m * 2 ^ (e - E) * 2 ^ 52 <= Zpos M * (2 ^ 52 + 1)
  | S754_zero false | S754_infinity false => True
  | _ => False
  end.
Proof.
  intros HE. unfold binary_round_aux, shr_fexp.
  set (n := fexp prec emax (Zdigits2 (Zpos M) + E) - E).
  set (r0 := shr_record_of_loc (Zpos M) loc_Exact).
  assert (H0 : 0 <= shr_m r0) by (subst r0; cbn; lia).
  destruct (shr_spec r0 E n H0) as (Hq & He & Hid).
  destruct (shr r0 E n) as [mrs' e']. cbn [fst snd] in Hq, He, Hid.
  set (m1 := round_nearest_even (shr_m mrs') (loc_of_shr_record mrs')).
  set (k := Z.max 0 n) in *.
  assert (Hk : 0 <= k) by lia.
  assert (Hpk : 0 < 2 ^ k) by (apply Z.pow_pos_nonneg; lia).
  assert (Hq0 : 0 <= shr_m mrs') by (rewrite Hq; apply Z.div_pos; assumption).
  pose proof (round_nearest_even_bounds (shr_m mrs') (loc_of_shr_record mrs')) as Hb.
  fold m1 in Hb.
  assert (Hm1 : 0 <= m1) by lia.
  assert (Hup : m1 * 2 ^ k * 2 ^ 52 <= Zpos M * (2 ^ 52 + 1)).
  { destruct (Z_le_gt_dec n 0) as [Hn|Hn].
    - subst m1. rewrite (Hid Hn). subst r0.
      cbn [shr_record_of_loc shr_m loc_of_shr_record round_nearest_even].
      replace k with 0 by lia. lia.
    - rewrite Hq in Hb. subst r0. cbn [shr_record_of_loc shr_m] in Hb.
      assert (Hkn : k = Zpos (digits2_pos M) - 53).
      { subst k n. unfold fexp, SpecFloat.emin, prec, emax in *.
        cbn [Zdigits2] in *. lia. }
      pose proof (digits2_pos_lower M) as Hd.
      assert (Hs : 2 ^ k * 2 ^ 52 <= Zpos M).
      { rewrite <- Z.pow_add_r by lia.
        replace (k + 52) with (Zpos (digits2_pos M) - 1) by lia. exact Hd. }
      pose proof (Z.mul_div_le (Zpos M) (2 ^ k) Hpk) as Hdiv.
      assert (m1 * 2 ^ k <= Zpos M + 2 ^ k) by nia.
      nia. }
  set (n2 := fexp prec emax (Zdigits2 m1 + e') - e').
  set (r1 := shr_record_of_loc m1 loc_Exact).
  assert (H1 : 0 <= shr_m r1) by (subst r1; cbn; lia).
  destruct (shr_spec r1 e' n2 H1) as (Hq2 & He2 & _).
  destruct (shr r1 e' n2) as [mrs'' e'']. cbn [fst snd] in Hq2, He2.
  subst r1. cbn [shr_record_of_loc shr_m] in Hq2.
  set (k2 := Z.max 0 n2) in *.
  assert (Hk2 : 0 <= k2) by lia.
  assert (Hpk2 : 0 < 2 ^ k2) by (apply Z.pow_pos_nonneg; lia).
  destruct (shr_m mrs'') as [|m|m] eqn:Em.
  - exact I.
  - destruct (e'' <=? emax - prec); [|exact I].
    split; [lia|].
    replace (e'' - E) with (k2 + k) by lia.
    rewrite Z.pow_add_r by lia.
    pose proof (Z.mul_div_le m1 (2 ^ k2) Hpk2) as Hdiv. rewrite <- Hq2 in Hdiv.
    nia.
  - pose proof (Z.div_pos m1 (2 ^ k2) Hm1 Hpk2). lia.
Qed.

Lemma pos_iter_xO p d : Zpos (Pos.iter xO p d) = Zpos p * 2 ^ Zpos d.
Proof.
  change (Pos.iter xO p d) with (shift_pos d p).
  rewrite shift_pos_correct. unfold Z.pow. lia.
Qed.

(** A positive integer converts to a [double] at most one part in [2^52]
    above it (values scaled by [2^200] to stay in [Z]). *)
Lemma binary_normalize_upper t :
  0 < t ->
  match binary_normalize prec emax t 0 false with
  | S754_finite false m e =>
      -52 <= e /\ Zpos m * 2 ^ (e + 200) * 2 ^ 52 <= t * 2 ^ 200 * (2 ^ 52 + 1)
  | S754_zero false | S754_infinity false => True
  | _ => False
  end.
Proof.
  intros Ht. destruct t as [|p|p]; try lia.
  unfold binary_normalize, binary_round.
  set (ex' := fexp prec emax (Zpos (digits2_pos p) + 0)).
  assert (Hex : -52 <= ex').
  { subst ex'. unfold fexp, SpecFloat.emin, prec, emax. lia. }
  assert (Hal : exists mz ez, shl_align p 0 ex' = (mz, ez) /\
                  -52 <= ez <= 0 /\ Zpos mz * 2 ^ (ez + 200) = Zpos p * 2 ^ 200).
  { unfold shl_align. destruct (ex' - 0) as [|d|d] eqn:Ed.
    - exists p, 0. repeat split; lia.
    - exists p, 0. repeat split; lia.
    - exists (Pos.iter xO p d), ex'. split; [reflexivity|]. split; [lia|].
      rewrite pos_iter_xO.
      replace 200 with (Zpos d + (ex' + 200)) at 2 by lia.
      rewrite (Z.pow_add_r 2 (Zpos d)) by lia. lia. }
  destruct Hal as (mz & ez & -> & Hez & Hval).
  pose proof (binary_round_aux_upper mz ez ltac:(lia)) as Hr.
  destruct (binary_round_aux prec emax false (Zpos mz) ez loc_Exact)
    as [[|]|[|]| |[|] m e]; try exact Hr.
  destruct Hr as (He & Hb). split; [lia|].
  replace (e + 200) with ((e - ez) + (ez + 200)) by lia.
  rewrite Z.pow_add_r by lia.
  assert (0 < 2 ^ (ez + 200)) by (apply Z.pow_pos_nonneg; lia).
  nia.
Qed.

(** [of_int] is the correctly rounded conversion. *)
Lemma Prim2SF_of_int t :
  0 <= t < 2 ^ 63 ->
  Prim2SF (of_int t) = binary_normalize prec emax t 0 false.
Proof.
  intros Ht. unfold of_int. apply FloatAxioms.Prim2SF_SF2Prim.
  rewrite <- (Z.mod_small t Uint63.wB) by (unfold Uint63.wB; cbn; lia).
  rewrite <- Uint63.of_Z_spec, <- FloatAxioms.of_uint63_spec.
  apply FloatAxioms.Prim2SF_valid.
Qed.

(** The integer part of a positive [double] is not above it. *)
Lemma truncate_finite_upper x m e :
  Prim2SF x = S754_finite false m e -> -200 <= e ->
  exists a, truncate x = Some a /\ 0 <= a /\
            a * 2 ^ 200 <= Zpos m * 2 ^ (e + 200).
Proof.
  intros Hx He. unfold truncate. rewrite Hx.
  destruct e as [|q|q].
  - eexists. split; [reflexivity|]. rewrite Z.shiftl_0_r. cbn [Z.add]. lia.
  - eexists. split; [reflexivity|]. rewrite Z.shiftl_mul_pow2 by lia.
    rewrite Z.pow_add_r by lia.
    assert (0 < 2 ^ Zpos q) by (apply Z.pow_pos_nonneg; lia). nia.
  - eexists. split; [reflexivity|]. rewrite Z.shiftr_div_pow2 by lia.
    assert (Hp : 0 < 2 ^ Zpos q) by (apply Z.pow_pos_nonneg; lia).
    split; [apply Z.div_pos; lia|].
    pose proof (Z.mul_div_le (Zpos m) (2 ^ Zpos q) Hp) as Hd.
    replace 200 with (Zpos q + (Zneg q + 200)) at 1 by lia.
    rewrite Z.pow_add_r by lia.
    assert (0 < 2 ^ (Z.neg q + 200)) by (apply Z.pow_pos_nonneg; lia).
    nia.
Qed.

Lemma to_int64_of_truncate x a :
  truncate x = Some a -> to_int64 x <= 0 \/ to_int64 x = a.
Proof.
  intros H. unfold to_int64. rewrite H.
  destruct ((min_int64 <=? a) && (a <=? max_int64)); [right; reflexivity|].
  left. unfold min_int64. lia.
Qed.

(** [TimePoint(c * double(t))] for a positive constant [c = mc * 2^ec]
    and [t >= 0]: at most [c * t * (1 + 2^-52)^2]. *)
Lemma share_upper c mc ec t :
  Prim2SF c = S754_finite false mc ec ->
  -100 <= ec <= 0 ->
  0 <= t < 2 ^ 63 ->
  let z := to_int64 (c * of_int t)%float in
  z <= 0 \/ z * 2 ^ (- ec) * 2 ^ 104 <= Zpos mc * (2 ^ 52 + 1) * (2 ^ 52 + 1) * t.
Proof.
  intros Hc Hec Ht z.
  assert (Hp : Prim2SF (c * of_int t)%float
               = SFmul prec emax (S754_finite false mc ec)
                       (binary_normalize prec emax t 0 false)).
  { rewrite FloatAxioms.mul_spec, Hc, Prim2SF_of_int by assumption. reflexivity. }
  assert (Hzero : forall s, Prim2SF (c * of_int t)%float = S754_zero s -> z <= 0).
  { intros s E. subst z. unfold to_int64, truncate. rewrite E. cbn. lia. }
  assert (Hinf : forall s, Prim2SF (c * of_int t)%float = S754_infinity s -> z <= 0).
  { intros s E. subst z. unfold to_int64, truncate. rewrite E. unfold min_int64. lia. }
  destruct (Z.eq_dec t 0) as [->|Hne].
  { left. apply (Hzero false). rewrite Hp. reflexivity. }
  pose proof (binary_normalize_upper t ltac:(lia)) as Hn.
  destruct (binary_normalize prec emax t 0 false) as [[|]|[|]| |[|] m e];
    try contradiction.
  - left. apply (Hzero false). rewrite Hp. reflexivity.
  - left. apply (Hinf false). rewrite Hp. reflexivity.
  - destruct Hn as (He & HX).
    cbn [SFmul xorb] in Hp.
    pose proof (binary_round_aux_upper (mc * m) (ec + e) ltac:(lia)) as Hr.
    destruct (binary_round_aux prec emax false (Zpos (mc * m)) (ec + e) loc_Exact)
      as [[|]|[|]| |[|] m' e']; try contradiction.
    + left. apply (Hzero false), Hp.
    + left. apply (Hinf false), Hp.
    + destruct Hr as (He' & HY).
      destruct (truncate_finite_upper _ m' e' Hp ltac:(lia)) as (a & Ha & Ha0 & HaY).
      destruct (to_int64_of_truncate _ a Ha) as [Hz|Hz]; [left; exact Hz|].
      right. fold z in Hz. rewrite Hz.
      set (u := 2 ^ (ec + e + 200)).
      set (v := 2 ^ (- ec)).
      set (w := 2 ^ (e' - (ec + e))) in *.
      assert (Hu : 0 < u) by (apply Z.pow_pos_nonneg; lia).
      assert (Hv : 0 < v) by (apply Z.pow_pos_nonneg; lia).
      assert (Hw : 0 < w) by (apply Z.pow_pos_nonneg; lia).
      assert (Euv : 2 ^ (e + 200) = u * v).
      { subst u v. rewrite <- Z.pow_add_r by lia. f_equal. lia. }
      assert (Ewu : 2 ^ (e' + 200) = w * u).
      { subst u w. rewrite <- Z.pow_add_r by lia. f_equal. lia. }
      rewrite Euv in HX. rewrite Ewu in HaY. rewrite Pos2Z.inj_mul in HY.
      set (S := 2 ^ 200) in *. set (B := 2 ^ 52) in *.
      assert (HS : 0 < S) by (subst S; lia).
      assert (HB : 0 < B) by (subst B; lia).
      replace (2 ^ 104) with (B * B) by (subst B; lia).
      (* a*S <= m'*w*u ;  m'*w*B <= mc*m*(B+1) ;  m*u*v*B <= t*S*(B+1) *)
      assert (H1 : a * S * B <= Zpos mc * Zpos m * u * (B + 1)).
      { transitivity (Zpos m' * w * B * u); [nia|].
        apply Z.mul_le_mono_nonneg_r with (p := u) in HY; lia. }
      assert (H2 : a * S * B * (v * B) <= Zpos mc * (B + 1) * (t * S * (B + 1))).
      { transitivity (Zpos mc * (B + 1) * (Zpos m * (u * v) * B)).
        - apply Z.mul_le_mono_nonneg_r with (p := v * B) in H1; [|nia]. nia.
        - apply Z.mul_le_mono_nonneg_l; [lia|]. lia. }
      apply Z.mul_le_mono_pos_r with (p := S); [exact HS|]. nia.
Qed.

(** [TimePoint(0.20 * t) <= t / 5] and [TimePoint(0.30 * t) <= 3 t / 10]
    for every clock below [2^49]. *)
Lemma share_20_upper t :
  0 <= t < 2 ^ 49 -> 5 * to_int64 (0.20 * of_int t)%float <= t.
Proof.
  intros Ht.
  destruct (share_upper 0.20%float 7205759403792794 (-55) t eq_refl
              ltac:(lia) ltac:(lia)) as [H|H]; [lia|].
  cbn [Z.opp] in H. lia.
Qed.

Lemma share_30_upper t :
  0 <= t < 2 ^ 49 -> 10 * to_int64 (0.30 * of_int t)%float <= 3 * t.
Proof.
  intros Ht.
  destruct (share_upper 0.30%float 5404319552844595 (-54) t eq_refl
              ltac:(lia) ltac:(lia)) as [H|H]; [lia|].
  cbn [Z.opp] in H. lia.
Qed.
(** Rounding commutes with the sign. *)
Lemma binary_round_aux_opp M E l :
  binary_round_aux prec emax true M E l
  = SFopp (binary_round_aux prec emax false M E l).
Proof.
  unfold binary_round_aux.
  destruct (shr_fexp prec emax M E l) as [mrs' e'].
  destruct (shr_fexp prec emax _ e' loc_Exact) as [mrs'' e''].
  destruct (shr_m mrs''); try reflexivity.
  destruct (e'' <=? emax - prec); reflexivity.
Qed.

Lemma binary_normalize_neg p :
  binary_normalize prec emax (Zneg p) 0 false
  = SFopp (binary_normalize prec emax (Zpos p) 0 false).
Proof.
  unfold binary_normalize, binary_round.
  destruct (shl_align p 0 _) as [mz ez]. apply binary_round_aux_opp.
Qed.

Lemma Prim2SF_of_int64 t :
  - 2 ^ 63 <= t < 2 ^ 63 ->
  Prim2SF (of_int t) = binary_normalize prec emax t 0 false.
Proof.
  intros Ht. destruct (Z_lt_le_dec t 0) as [Hneg|Hpos].
  - destruct (Z.eq_dec t (- 2 ^ 63)) as [->|Hne]; [vm_compute; reflexivity|].
    destruct t as [|p|p]; try lia.
    unfold of_int. apply FloatAxioms.Prim2SF_SF2Prim.
    rewrite binary_normalize_neg.
    rewrite <- (Z.mod_small (Zpos p) Uint63.wB) by (unfold Uint63.wB; cbn; lia).
    rewrite <- Uint63.of_Z_spec, <- FloatAxioms.of_uint63_spec,
      <- FloatAxioms.opp_spec.
    apply FloatAxioms.Prim2SF_valid.
  - apply Prim2SF_of_int. lia.
Qed.

(** A negative clock gives a share that is not positive. *)
Lemma share_nonpos c mc ec t :
  Prim2SF c = S754_finite false mc ec ->
  -100 <= ec <= 0 ->
  - 2 ^ 63 <= t < 0 ->
  to_int64 (c * of_int t)%float <= 0.
Proof.
  intros Hc Hec Ht.
  assert (Hp : Prim2SF (c * of_int t)%float
               = SFmul prec emax (S754_finite false mc ec)
                       (binary_normalize prec emax t 0 false)).
  { rewrite FloatAxioms.mul_spec, Hc, Prim2SF_of_int64 by lia. reflexivity. }
  destruct t as [|p|p]; try lia.
  rewrite binary_normalize_neg in Hp.
  pose proof (binary_normalize_upper (Zpos p) ltac:(lia)) as Hn.
  unfold to_int64, truncate. rewrite Hp.
  destruct (binary_normalize prec emax (Zpos p) 0 false) as [[|]|[|]| |[|] m e];
    try contradiction; cbn [SFopp SFmul xorb negb];
    try solve [destruct (_ && _); unfold min_int64; lia | unfold min_int64; lia].
  rewrite binary_round_aux_opp.
  pose proof (binary_round_aux_upper (mc * m) (ec + e) ltac:(lia)) as Hr.
  destruct (binary_round_aux prec emax false (Zpos (mc * m)) (ec + e) loc_Exact)
    as [[|]|[|]| |[|] m' e']; try contradiction;
    cbn [SFopp negb];
    try solve [destruct (_ && _); unfold min_int64; lia | unfold min_int64; lia].
  assert (Ha : 0 <= match e' with
                    | Zneg q => Z.shiftr (Zpos m') (Zpos q)
                    | _ => Z.shiftl (Zpos m') e'
                    end).
  { destruct e' as [|q|q].
    - rewrite Z.shiftl_0_r. lia.
    - apply Z.shiftl_nonneg. lia.
    - apply Z.shiftr_nonneg. lia. }
  destruct (_ && _); [lia | unfold min_int64; lia].
Qed.

(** The 20% cap of a 64-bit clock leaves room for the ponder adjustment. *)
Lemma share_20_bounded t :
  - 2 ^ 63 <= t < 2 ^ 63 -> to_int64 (0.20 * of_int t)%float <= 2 ^ 61.
Proof.
  intros Ht. destruct (Z_lt_le_dec t 0) as [Hneg|Hpos].
  - pose proof (share_nonpos 0.20%float 7205759403792794 (-55) t eq_refl
                  ltac:(lia) ltac:(lia)). lia.
  - destruct (share_upper 0.20%float 7205759403792794 (-55) t eq_refl
                ltac:(lia) ltac:(lia)) as [H|H]; [lia|].
    cbn [Z.opp] in H. lia.
Qed.

(* ================================================================== *)
(** ** The locals of [init] *)

(** The locals with node-time emulation off, and on. *)
Lemma locals_nodes_off t l us options :
  nodestime options = 0 ->
  locals t l us options =
  let scaledTime := div64 (get (time l) us) 1 in
  let centiMTG := centiMTG_of (movestogo l) scaledTime in
  mkLocals 0 false 1 (availableNodes t) l (Move_Overhead options)
           scaledTime centiMTG
           (timeLeft_of l us centiMTG (Move_Overhead options)).
Proof. intros H. unfold locals. rewrite H. reflexivity. Qed.

Lemma locals_nodes_on t l us options :
  nodestime options <> 0 ->
  locals t l us options =
  let npmsec_ := nodestime options in
  let nb := nodes_time_block npmsec_ us (availableNodes t) l in
  let scaledTime := div64 (get (time (snd nb)) us) npmsec_ in
  let centiMTG := centiMTG_of (movestogo l) scaledTime in
  mkLocals npmsec_ true npmsec_ (fst nb) (snd nb) (Move_Overhead options)
           scaledTime centiMTG
           (timeLeft_of (snd nb) us centiMTG (Move_Overhead options)).
Proof.
  intros H. unfold locals.
  destruct (Z.eqb_spec (nodestime options) 0) as [E|_]; [contradiction|].
  reflexivity.
Qed.

Lemma locals_movestogo t l us options :
  movestogo (loc_limits (locals t l us options)) = movestogo l.
Proof.
  destruct (Z.eq_dec (nodestime options) 0) as [E|E].
  - rewrite locals_nodes_off by assumption. reflexivity.
  - rewrite locals_nodes_on by assumption. reflexivity.
Qed.

Lemma locals_centiMTG t l us options :
  loc_centiMTG (locals t l us options) =
  centiMTG_of (movestogo l) (loc_scaledTime (locals t l us options)).
Proof.
  destruct (Z.eq_dec (nodestime options) 0) as [E|E].
  - rewrite locals_nodes_off by assumption. reflexivity.
  - rewrite locals_nodes_on by assumption. reflexivity.
Qed.

Lemma locals_timeLeft_pos t l us options :
  1 <= loc_timeLeft (locals t l us options).
Proof.
  destruct (Z.eq_dec (nodestime options) 0) as [E|E].
  - rewrite locals_nodes_off by assumption. cbn [loc_timeLeft].
    unfold timeLeft_of. lia.
  - rewrite locals_nodes_on by assumption. cbn [loc_timeLeft].
    unfold timeLeft_of. lia.
Qed.

Lemma locals_scaleFactor_nonzero t l us options :
  loc_scaleFactor (locals t l us options) <> 0.
Proof.
  destruct (Z.eq_dec (nodestime options) 0) as [E|E].
  - rewrite locals_nodes_off by assumption. cbn [loc_scaleFactor]. lia.
  - rewrite locals_nodes_on by assumption. cbn [loc_scaleFactor]. exact E.
Qed.

(** The prior state of the time manager enters the locals through
    [availableNodes] only. *)
Lemma locals_depend_on_availableNodes t1 t2 l us options :
  availableNodes t1 = availableNodes t2 ->
  locals t1 l us options = locals t2 l us options.
Proof. intros H. unfold locals. rewrite H. reflexivity. Qed.

Lemma locals_with_Ponder b t l us options :
  locals t l us (with_Ponder b options) = locals t l us options.
Proof. reflexivity. Qed.

(** Below one second, [static_cast<int>(scaledTime * 5.051)] is the
    integer part of the exact product: checked on each of the 1000
    values. *)
Lemma short_clock_horizon s :
  0 <= s < 1000 -> to_int32 (of_int s * 5.051)%float = 5051 * s / 1000.
Proof.
  intros Hs.
  assert (T : forallb
                (fun n => to_int32 (of_int (Z.of_nat n) * 5.051)%float
                          =? 5051 * Z.of_nat n / 1000)
                (seq 0 1000) = true) by (vm_compute; reflexivity).
  rewrite forallb_forall in T.
  specialize (T (Z.to_nat s)).
  rewrite Z2Nat.id in T by lia.
  apply Z.eqb_eq, T, in_seq. lia.
Qed.

(** For a negative [scaledTime] above -1000 the cast rounds toward zero,
    so the result lies strictly above the exact product: checked on
    each of the 999 values. *)
Lemma negative_clock_horizon s :
  -1000 < s < 0 ->
  to_int32 (of_int s * 5.051)%float = - (5051 * - s / 1000) /\
  5051 * s < 1000 * - (5051 * - s / 1000).
Proof.
  intros Hs.
  assert (T : forallb
                (fun n =>
                   (to_int32 (of_int (- Z.of_nat n) * 5.051)%float
                      =? - (5051 * Z.of_nat n / 1000)) &&
                   (1000 * (5051 * Z.of_nat n / 1000) <? 5051 * Z.of_nat n))
                (seq 1 999) = true) by (vm_compute; reflexivity).
  rewrite forallb_forall in T.
  specialize (T (Z.to_nat (- s))).
  rewrite Z2Nat.id in T by lia.
  rewrite Z.opp_involutive in T.
  destruct (proj1 (andb_true_iff _ _) (T ltac:(apply in_seq; lia))) as [E L].
  apply Z.eqb_eq in E. apply Z.ltb_lt in L. split; [exact E | lia].
Qed.

Lemma centiMTG_base_given mtg :
  mtg <> 0 -> in_int32 (mtg * 100) -> centiMTG_base mtg = Z.min (mtg * 100) 5000.
Proof.
  intros Hne Hr. unfold centiMTG_base, mul32.
  destruct (Z.eqb_spec mtg 0); [contradiction|].
  rewrite wrap32_small by assumption. reflexivity.
Qed.

Lemma get_set_same a c v : get (set a c v) c = v.
Proof. destruct c; reflexivity. Qed.

(** The clock that the formulas of [init] read is a 64-bit value. *)
Lemma locals_time_in_int64 t l us options :
  in_int64 (get (time l) us) -> in_int64 (availableNodes t) ->
  in_int64 (get (time (loc_limits (locals t l us options))) us).
Proof.
  intros Ht Ha. destruct (Z.eq_dec (nodestime options) 0) as [E|E].
  - rewrite locals_nodes_off by assumption. exact Ht.
  - rewrite locals_nodes_on by assumption. cbv zeta.
    cbn [loc_limits]. unfold nodes_time_block. cbn [snd time].
    rewrite get_set_same.
    destruct (availableNodes t =? -1); [apply wrap64_in_int64 | exact Ha].
Qed.

(* ================================================================== *)
(** ** Unfolding [init] when the clock is running *)

Section Unfold.

Variable libm : Libm.

(** [init] past the early return, as one record. *)
Lemma Timeman_init_running t l us ply options ota :
  get (time l) us <> 0 ->
  Timeman.init libm t l us ply options ota =
  let L := locals t l us options in
  let sc := Timeman.scales libm L us ply (next_adjust libm L ota) in
  let b := Timeman.bounds L us (fst sc) (snd sc) in
  mkResult (mkTM (startTime l) (ponder_adjust options (fst b)) (snd b)
                 (loc_availableNodes L) (negb (nodestime options =? 0)))
           (loc_limits L) (next_adjust libm L ota).
Proof.
  intros Hne. unfold Timeman.init, next_adjust.
  destruct (Z.eqb_spec (get (time l) us) 0) as [E|_]; [contradiction|].
  cbv zeta.
  destruct (Timeman.scales _ _ _ _ _) as [os ms]. cbn [fst snd].
  destruct (Timeman.bounds _ _ _ _) as [o m]. reflexivity.
Qed.

Lemma Part000_init_running t l us ply options ota :
  get (time l) us <> 0 ->
  Part000.init libm t l us ply options ota =
  let L := locals t l us options in
  let sc := Part000.scales libm L us ply (next_adjust libm L ota) in
  let b := Part000.bounds L us (fst sc) (snd sc) in
  mkResult (mkTM (startTime l) (ponder_adjust options (fst b)) (snd b)
                 (loc_availableNodes L) (loc_useNodesTime L))
           (loc_limits L) (next_adjust libm L ota).
Proof.
  intros Hne. unfold Part000.init, next_adjust.
  destruct (Z.eqb_spec (get (time l) us) 0) as [E|_]; [contradiction|].
  cbv zeta.
  destruct (Part000.scales _ _ _ _ _) as [os ms]. cbn [fst snd].
  destruct (Part000.bounds _ _ _ _) as [o m]. reflexivity.
Qed.

Lemma Part000_bounds_ordered L us os ms :
  1 <= fst (Part000.bounds L us os ms) <= snd (Part000.bounds L us os ms).
Proof.
  unfold Part000.bounds, Part000.calculateBounds. cbv zeta. cbn [fst snd].
  lia.
Qed.

Lemma Part000_optimum_range L us os ms :
  in_int64 (get (time (loc_limits L)) us) ->
  1 <= fst (Part000.bounds L us os ms) <= 2 ^ 61.
Proof.
  intros Hr. unfold Part000.bounds, Part000.calculateBounds. cbv zeta.
  cbn [fst].
  pose proof (share_20_bounded (get (time (loc_limits L)) us)) as Hc.
  unfold in_int64, min_int64, max_int64 in Hr. lia.
Qed.

Lemma Timeman_bounds_maximum L us os ms :
  1 <= snd (Timeman.bounds L us os ms).
Proof. unfold Timeman.bounds. cbv zeta. cbn [snd]. lia. Qed.

End Unfold.

(* ================================================================== *)
(** ** Pondering, the node budget and the calibration scalar *)

(** The ponder adjustment does not wrap for an optimum up to [2^62]. *)
Lemma ponder_adjust_small o :
  0 <= o <= 2 ^ 62 -> add64 o (div64 o 4) = o + o / 4.
Proof.
  intros H. unfold add64, div64.
  rewrite Z.quot_div_nonneg by lia.
  assert (0 <= o / 4 <= 2 ^ 60)
    by (split; [apply Z.div_pos; lia | apply Z.div_le_upper_bound; lia]).
  rewrite (wrap64_small (o / 4)) by (unfold in_int64, min_int64, max_int64; lia).
  apply wrap64_small. unfold in_int64, min_int64, max_int64. lia.
Qed.

Lemma ponder_effect_intro o m on off :
  optimum (tm off) = o -> optimum (tm on) = add64 o (div64 o 4) ->
  maximum (tm off) = m -> maximum (tm on) = m ->
  ponder_effect on off.
Proof.
  intros Ho Hon Hm Hm'. unfold ponder_effect. cbv zeta.
  rewrite Ho, Hon, Hm, Hm'. split; [reflexivity|]. split; [reflexivity|].
  intros Hr. rewrite ponder_adjust_small by assumption.
  pose proof (Z.div_mod o 4 ltac:(lia)) as Hdm.
  pose proof (Z.mod_pos_bound o 4 ltac:(lia)) as Hmb.
  repeat split; intros; lia.
Qed.

Lemma advance_nodes_time_on n t :
  useNodesTime t = true ->
  advance_nodes_time n t =
  Some (mkTM (tm_startTime t) (optimumTime t) (maximumTime t)
             (Z.max 0 (sub64 (availableNodes t) n)) true).
Proof. intros H. unfold advance_nodes_time. rewrite H. reflexivity. Qed.

(** A run of [advance_nodes_time] calls goes through once node-time
    emulation is on, keeps it on, and leaves a budget that is a 64-bit
    value and, after at least one call, not negative. *)
Lemma advance_run_on ns : forall t,
  useNodesTime t = true -> in_int64 (availableNodes t) ->
  exists s, advance_run ns t = Some s /\
            useNodesTime s = true /\
            in_int64 (availableNodes s) /\
            (ns <> [] \/ 0 <= availableNodes t -> 0 <= availableNodes s).
Proof.
  induction ns as [|n ns IH]; intros t Hon Hr.
  - exists t. cbn. repeat split; try assumption; try apply Hr.
    intros [H|H]; [contradiction | exact H].
  - cbn [advance_run]. rewrite advance_nodes_time_on by assumption.
    set (t' := mkTM _ _ _ _ _).
    assert (Hr' : in_int64 (availableNodes t')).
    { subst t'. cbn [availableNodes].
      pose proof (wrap64_in_int64 (availableNodes t - n)) as Hw.
      unfold sub64, in_int64, min_int64, max_int64 in *. lia. }
    destruct (IH t' eq_refl Hr') as (s & Hs & Hon' & Hrs & Hpos).
    exists s. repeat split; try assumption; try apply Hrs.
    intros _. apply Hpos. right. subst t'. cbn [availableNodes]. lia.
Qed.

Lemma node_budget_intro t1 rate remaining :
  useNodesTime t1 = true ->
  in_int64 (rate * remaining) ->
  availableNodes t1 = rate * remaining ->
  node_budget t1 rate remaining.
Proof.
  intros Hon Hr Ha. split; [exact Ha|].
  intros ns.
  destruct (advance_run_on ns t1 Hon) as (s & Hs & Hon' & Hrs & Hpos);
    [rewrite Ha; exact Hr|].
  exists s. split; [exact Hs|]. split; [intros H; apply Hpos; left; exact H|].
  intros n. rewrite advance_nodes_time_on by assumption.
  eexists. split; [reflexivity|]. cbn [availableNodes].
  unfold sub64. unfold in_int64, min_int64, max_int64 in Hrs.
  repeat split.
  - intros Hn. rewrite wrap64_small;
      [lia | unfold in_int64, min_int64, max_int64; lia].
  - intros Hn Hd. rewrite wrap64_small by exact Hd. lia.
  - lia.
Qed.

Section Adjust.

Variable libm : Libm.

Lemma adjust_policy_intro (init : InitFn) :
  (forall t l us ply options ota,
     originalTimeAdjust (init t l us ply options ota)
       = if get (time l) us =? 0 then ota
         else next_adjust libm (locals t l us options) ota) ->
  adjust_policy libm init.
Proof.
  intros Hi.
  assert (Hkeep : forall t l us ply options ota,
             (ota <? 0)%float = false ->
             originalTimeAdjust (init t l us ply options ota) = ota).
  { intros t l us ply options ota Hlt. rewrite Hi.
    unfold next_adjust, adjust. rewrite Hlt.
    destruct (_ =? 0); [reflexivity|]. destruct (_ =? 0); reflexivity. }
  split; [exact Hkeep|]. split; [|split].
  - intros t l us ply options ota Hm. rewrite Hi.
    unfold next_adjust. rewrite locals_movestogo.
    destruct (Z.eqb_spec (get (time l) us) 0); [reflexivity|].
    destruct (Z.eqb_spec (movestogo l) 0); [|reflexivity].
    destruct Hm; contradiction.
  - intros t l us ply options ota Hne Hm Hlt. rewrite Hi.
    destruct (Z.eqb_spec (get (time l) us) 0); [contradiction|].
    unfold next_adjust, adjust. rewrite locals_movestogo, Hm, Hlt. reflexivity.
  - induction cs as [|c cs IH]; intros s Hs; [reflexivity|].
    unfold play in *. cbn [fold_left].
    rewrite IH; unfold play_move; cbn [snd]; rewrite Hkeep; auto.
Qed.

End Adjust.

(* ================================================================== *)
(** ** The scenarios of the specification, run with the reference library *)

Import Sample.

(** One minute, sudden death, ply 10, move overhead 10: node-time
    emulation is off, both bounds are positive and ordered, and the
    optimum is below a fifth of the clock. *)
Example scenario_one_minute :
  let r := Part000.init RefLibm.libm fresh (clock 60000 0 0) WHITE 10
                        (uci 0 10 false) unset in
  useNodesTime (tm r) = false /\
  optimum (tm r) = 1539 /\ maximum (tm r) = 10275 /\
  0 < optimum (tm r) <= maximum (tm r) /\ optimum (tm r) <= 12000.
Proof. vm_compute. repeat split; discriminate. Qed.

(** One second, sudden death, ply 1: at exactly 1000 the short-clock
    branch is not taken and [centiMTG] stays 5051 (at 999 it is 5045);
    the optimum is below the clock. *)
Example scenario_one_second :
  let r := Part000.init RefLibm.libm fresh (clock 1000 0 0) WHITE 1
                        (uci 0 10 false) unset in
  loc_centiMTG (locals fresh (clock 1000 0 0) WHITE (uci 0 10 false)) = 5051 /\
  loc_centiMTG (locals fresh (clock 999 0 0) WHITE (uci 0 10 false)) = 5045 /\
  optimum (tm r) = 3 /\ optimum (tm r) <= 1000.
Proof. vm_compute. repeat split; discriminate. Qed.

(** Five minutes for 30 moves, ply 5: the moves-to-go branch, which
    leaves [originalTimeAdjust] alone. *)
Example scenario_moves_to_go :
  let r := Part000.init RefLibm.libm fresh (clock 300000 0 30) WHITE 5
                        (uci 0 10 false) unset in
  optimum (tm r) = 9219 /\ maximum (tm r) = 42407 /\
  originalTimeAdjust r = unset.
Proof. vm_compute. repeat split; reflexivity. Qed.

(* ================================================================== *)
(** ** The claims of the specification *)

(** C1, as stated, fails.  In [src/timeman.cpp], one minute for one move
    gives optimum 52773 and maximum 12000.  In the second copy, with
    pondering on, 160 ms plus 400 ms increment for two moves and a move
    overhead of 100 gives optimum 40 and maximum 32. *)
Lemma C1_counterexample :
  (let r := Timeman.init RefLibm.libm fresh (clock 60000 0 1) WHITE 0
                         (uci 0 10 false) unset in
   ~ (1 <= optimum (tm r) <= maximum (tm r))) /\
  (let r := Part000.init RefLibm.libm fresh (clock 160 400 2) WHITE 0
                         (uci 0 100 true) unset in
   ~ (1 <= optimum (tm r) <= maximum (tm r))).
Proof.
  split; cbv zeta; intros [_ H]; vm_compute in H; apply H; reflexivity.
Qed.

(** C1, amended: after [init] with nonzero remaining time, the second
    copy stores [maximum() >= o >= 1], where [o] is the optimum before
    the pondering adjustment (the [optimum()] of the same call with
    Ponder off); so [maximum() >= optimum() >= 1] when Ponder is off,
    and [optimum() >= o >= 1] in any case (the clock and the node budget
    being 64-bit values).  The pondering adjustment comes after the
    clamp of the maximum and is not covered by it.  [src/timeman.cpp]
    only guarantees [maximum() >= 1]. *)
Theorem C1_maximum_bounds_optimum :
  forall libm t l us ply options ota,
    get (time l) us <> 0 ->
    let off := Part000.init libm t l us ply (with_Ponder false options) ota in
    let on := Part000.init libm t l us ply options ota in
    let a := Timeman.init libm t l us ply options ota in
    1 <= optimum (tm off) <= maximum (tm on) /\
    (Ponder options = false -> 1 <= optimum (tm on) <= maximum (tm on)) /\
    (in_int64 (get (time l) us) -> in_int64 (availableNodes t) ->
       optimum (tm off) <= optimum (tm on)) /\
    1 <= maximum (tm a).
Proof.
  intros libm t l us ply options ota Hne. cbv zeta.
  rewrite !Part000_init_running, Timeman_init_running by assumption.
  cbv zeta. rewrite locals_with_Ponder.
  unfold optimum, maximum. cbn [tm optimumTime maximumTime].
  set (L := locals t l us options).
  set (sc := Part000.scales libm L us ply (next_adjust libm L ota)).
  pose proof (Part000_bounds_ordered L us (fst sc) (snd sc)) as HB.
  pose proof (Timeman_bounds_maximum L us
                (fst (Timeman.scales libm L us ply (next_adjust libm L ota)))
                (snd (Timeman.scales libm L us ply (next_adjust libm L ota)))) as HA.
  unfold ponder_adjust. cbn [Ponder with_Ponder].
  split; [lia|]. split; [|split; [|lia]].
  - intros ->. lia.
  - intros Ht Ha.
    pose proof (Part000_optimum_range L us (fst sc) (snd sc)
                  (locals_time_in_int64 t l us options Ht Ha)) as Hr.
    destruct (Ponder options); [|lia].
    rewrite ponder_adjust_small by lia.
    pose proof (Z.div_pos (fst (Part000.bounds L us (fst sc) (snd sc))) 4
                  ltac:(lia) ltac:(lia)).
    lia.
Qed.

Lemma C1_witness :
  let off := Part000.init RefLibm.libm fresh (clock 60000 0 0) WHITE 10
                          (with_Ponder false (uci 0 10 true)) unset in
  let on := Part000.init RefLibm.libm fresh (clock 60000 0 0) WHITE 10
                         (uci 0 10 true) unset in
  let a := Timeman.init RefLibm.libm fresh (clock 60000 0 0) WHITE 10
                        (uci 0 10 true) unset in
  1 <= optimum (tm off) <= maximum (tm on) /\
  optimum (tm off) <= optimum (tm on) /\
  1 <= maximum (tm a).
Proof.
  pose proof (C1_maximum_bounds_optimum RefLibm.libm fresh (clock 60000 0 0)
                WHITE 10 (uci 0 10 true) unset) as H.
  cbv zeta in H. cbv zeta.
  destruct H as (H1 & _ & H3 & H4); [vm_compute; discriminate|].
  split; [exact H1|]. split; [|exact H4].
  apply H3; vm_compute; split; discriminate.
Defined.

(** C2, as stated, fails: with 1 ms on the clock the second copy stores
    optimum 1 and maximum 1, above 0.20 and 0.30 of the remaining time;
    and [src/timeman.cpp] puts no cap on the optimum (52773 of 60000). *)
Lemma C2_counterexample :
  (let r := Part000.init RefLibm.libm fresh (clock 1 0 1) WHITE 0
                         (uci 0 10 false) unset in
   ~ (100 * optimum (tm r) <= 20 * get (time (limits r)) WHITE) /\
   ~ (100 * maximum (tm r) <= 30 * get (time (limits r)) WHITE)) /\
  (let r := Timeman.init RefLibm.libm fresh (clock 60000 0 1) WHITE 0
                         (uci 0 10 false) unset in
   ~ (100 * optimum (tm r) <= 20 * get (time (limits r)) WHITE)).
Proof.
  cbv zeta. repeat split; intros H; vm_compute in H; apply H; reflexivity.
Qed.

(** C2, amended: let [t] be the remaining time of the side to move as
    [init] leaves it in the limits.  For [5 <= t < 2^49] the second copy
    stores an optimum that is, before the pondering adjustment, at most
    [0.20 * t], and a maximum at most [0.30 * t]; [src/timeman.cpp]
    stores a maximum at most [0.20 * t] and does not cap the optimum.
    Below 5 the floor of 1 takes over: for every nonzero [t], with
    [c20 = TimePoint(0.20 * t)] and [c30 = TimePoint(0.30 * t)], the
    bounds are [max(1, c20)], [max(o, c30)] and [max(1, c20)]. *)
Theorem C2_capped_by_share_of_clock :
  forall libm t l us ply options ota,
    get (time l) us <> 0 ->
    let off := Part000.init libm t l us ply (with_Ponder false options) ota in
    let on := Part000.init libm t l us ply options ota in
    let a := Timeman.init libm t l us ply options ota in
    let time_us := get (time (limits on)) us in
    let c20 := to_int64 (0.20 * of_int time_us)%float in
    let c30 := to_int64 (0.30 * of_int time_us)%float in
    limits a = limits on /\
    optimum (tm off) <= Z.max 1 c20 /\
    maximum (tm on) <= Z.max (optimum (tm off)) c30 /\
    maximum (tm a) <= Z.max 1 c20 /\
    (5 <= time_us < 2 ^ 49 ->
       100 * optimum (tm off) <= 20 * time_us /\
       100 * maximum (tm on) <= 30 * time_us /\
       100 * maximum (tm a) <= 20 * time_us).
Proof.
  intros libm t l us ply options ota Hne. cbv zeta.
  rewrite !Part000_init_running, Timeman_init_running by assumption.
  cbv zeta. rewrite locals_with_Ponder.
  unfold optimum, maximum. cbn [tm limits optimumTime maximumTime].
  unfold ponder_adjust. cbn [Ponder with_Ponder].
  unfold Part000.bounds, Part000.calculateBounds, Timeman.bounds.
  cbv zeta. cbn [fst snd].
  set (time_us := get (time (loc_limits (locals t l us options))) us).
  split; [reflexivity|]. split; [lia|]. split; [lia|]. split; [lia|].
  intros Hr.
  pose proof (share_20_upper time_us ltac:(lia)) as H20.
  pose proof (share_30_upper time_us ltac:(lia)) as H30.
  repeat split; lia.
Qed.

Lemma C2_witness :
  let off := Part000.init RefLibm.libm fresh (clock 60000 0 0) WHITE 10
                          (with_Ponder false (uci 0 10 true)) unset in
  let on := Part000.init RefLibm.libm fresh (clock 60000 0 0) WHITE 10
                         (uci 0 10 true) unset in
  let a := Timeman.init RefLibm.libm fresh (clock 60000 0 0) WHITE 10
                        (uci 0 10 true) unset in
  100 * optimum (tm off) <= 20 * 60000 /\
  100 * maximum (tm on) <= 30 * 60000 /\
  100 * maximum (tm a) <= 20 * 60000.
Proof.
  pose proof (C2_capped_by_share_of_clock RefLibm.libm fresh (clock 60000 0 0)
                WHITE 10 (uci 0 10 true) unset) as H.
  cbv zeta in H.
  destruct H as (_ & _ & _ & _ & H); [vm_compute; discriminate|].
  apply H. vm_compute. split; [discriminate | reflexivity].
Defined.

(** C3, as stated, fails in [src/timeman.cpp]: [useNodesTime] is set
    from the node rate before the test of the remaining time, so with a
    node rate of 1000 and no time on the clock it is left true. *)
Lemma C3_counterexample :
  useNodesTime
    (tm (Timeman.init RefLibm.libm fresh (clock 0 0 0) WHITE 0
                      (uci 1000 10 false) unset)) <> false.
Proof. vm_compute. discriminate. Qed.

(** C3, amended: when the remaining time of the side to move is zero,
    [init] records the start time and returns with [optimumTime],
    [maximumTime], [availableNodes], the limits and
    [originalTimeAdjust] as they were; the second copy leaves
    [useNodesTime] false, [src/timeman.cpp] leaves it equal to
    (node rate != 0). *)
Theorem C3_zero_time_returns_early :
  forall libm t l us ply options ota,
    get (time l) us = 0 ->
    Part000.init libm t l us ply options ota =
      mkResult (mkTM (startTime l) (optimumTime t) (maximumTime t)
                     (availableNodes t) false)
               l ota /\
    Timeman.init libm t l us ply options ota =
      mkResult (mkTM (startTime l) (optimumTime t) (maximumTime t)
                     (availableNodes t) (negb (nodestime options =? 0)))
               l ota.
Proof.
  intros libm t l us ply options ota H0.
  unfold Part000.init, Timeman.init. rewrite H0. cbn [Z.eqb]. cbv zeta.
  split; reflexivity.
Qed.

Lemma C3_witness :
  Part000.init RefLibm.libm (mkTM 7 1500 9000 42 true) (clock 0 0 0) WHITE 3
               (uci 1000 10 true) unset =
    mkResult (mkTM 0 1500 9000 42 false) (clock 0 0 0) unset /\
  Timeman.init RefLibm.libm (mkTM 7 1500 9000 42 true) (clock 0 0 0) WHITE 3
               (uci 1000 10 true) unset =
    mkResult (mkTM 0 1500 9000 42 true) (clock 0 0 0) unset.
Proof.
  apply (C3_zero_time_returns_early RefLibm.libm (mkTM 7 1500 9000 42 true)
           (clock 0 0 0) WHITE 3 (uci 1000 10 true) unset).
  reflexivity.
Defined.

(** C4, as stated, fails: with a node rate of 1000 and no time on the
    clock, the first [init] after [clear()] returns before the budget is
    seeded, so [availableNodes] is left at -1, which is neither
    rate times the remaining time (0) nor non-negative; in the second
    copy [useNodesTime] is false and [advance_nodes_time] fails its
    assertion. *)
Lemma C4_counterexample :
  let a := tm (Timeman.init RefLibm.libm (clear fresh) (clock 0 0 0) WHITE 0
                            (uci 1000 10 false) unset) in
  let b := tm (Part000.init RefLibm.libm (clear fresh) (clock 0 0 0) WHITE 0
                            (uci 1000 10 false) unset) in
  availableNodes a <> 1000 * get (time (clock 0 0 0)) WHITE /\
  availableNodes b <> 1000 * get (time (clock 0 0 0)) WHITE /\
  ~ 0 <= availableNodes a /\
  ~ 0 <= availableNodes b /\
  advance_nodes_time 0 b = None.
Proof.
  vm_compute.
  split; [discriminate|]. split; [discriminate|].
  split; [intros H; apply H; reflexivity|].
  split; [intros H; apply H; reflexivity | reflexivity].
Qed.

(** C4, amended: with a nonzero node rate, when the remaining time is
    nonzero (and rate times remaining time a 64-bit value) the first
    [init] after [clear()] sets [availableNodes] to rate times the
    remaining time; every later [advance_nodes_time(n)] succeeds, takes
    exactly [n] off the budget when [0 <= n < availableNodes], sets it
    to 0 when [n >= availableNodes], and never leaves it negative.
    When the remaining time is zero, [init] returns before the seeding
    and [availableNodes] stays -1: [src/timeman.cpp] leaves
    [useNodesTime] true, so that a following [advance_nodes_time(n)]
    with a node count [n] sets the budget to 0; the second copy leaves
    [useNodesTime] false, so that [advance_nodes_time] fails its
    assertion. *)
Theorem C4_node_budget :
  forall libm t l us ply options ota,
    nodestime options <> 0 ->
    let a := tm (Timeman.init libm (clear t) l us ply options ota) in
    let b := tm (Part000.init libm (clear t) l us ply options ota) in
    (get (time l) us <> 0 ->
     in_int64 (nodestime options * get (time l) us) ->
     node_budget a (nodestime options) (get (time l) us) /\
     node_budget b (nodestime options) (get (time l) us)) /\
    (get (time l) us = 0 ->
     availableNodes a = -1 /\ useNodesTime a = true /\
     availableNodes b = -1 /\ useNodesTime b = false /\
     (forall n, node_count n ->
        exists s, advance_nodes_time n a = Some s /\ availableNodes s = 0) /\
     (forall n, advance_nodes_time n b = None)).
Proof.
  intros libm t l us ply options ota Hrate. cbv zeta. split.
  - intros Hne Hr.
    rewrite Timeman_init_running, Part000_init_running by assumption.
    cbv zeta. rewrite locals_nodes_on by assumption. cbv zeta.
    cbn [tm availableNodes useNodesTime loc_availableNodes loc_useNodesTime].
    destruct (Z.eqb_spec (nodestime options) 0) as [E|_]; [contradiction|].
    assert (Ha : fst (nodes_time_block (nodestime options) us
                        (availableNodes (clear t)) l)
                 = nodestime options * get (time l) us).
    { unfold nodes_time_block. cbn [clear availableNodes fst Z.eqb Pos.eqb].
      apply wrap64_small, Hr. }
    split; apply node_budget_intro; cbn [useNodesTime availableNodes];
      try reflexivity; assumption.
  - intros H0. unfold Timeman.init, Part000.init. rewrite H0.
    cbn [Z.eqb]. cbv zeta. cbn [tm availableNodes useNodesTime clear].
    destruct (Z.eqb_spec (nodestime options) 0) as [E|_]; [contradiction|].
    cbn [negb].
    split; [reflexivity|]. split; [reflexivity|].
    split; [reflexivity|]. split; [reflexivity|].
    split.
    + intros n Hn. unfold advance_nodes_time. cbn [useNodesTime availableNodes].
      eexists. split; [reflexivity|]. cbn [availableNodes].
      unfold sub64. rewrite wrap64_small;
        unfold node_count, in_int64, min_int64, max_int64 in *; lia.
    + intros n. reflexivity.
Qed.

Lemma C4_witness :
  (node_budget (tm (Timeman.init RefLibm.libm (clear fresh) (clock 60000 0 0)
                                 WHITE 10 (uci 1000 10 false) unset))
               1000 60000 /\
   node_budget (tm (Part000.init RefLibm.libm (clear fresh) (clock 60000 0 0)
                                 WHITE 10 (uci 1000 10 false) unset))
               1000 60000) /\
  availableNodes (tm (Timeman.init RefLibm.libm (clear (mkTM 7 1500 9000 42 true))
                                   (clock 0 0 0) WHITE 10 (uci 1000 10 false)
                                   unset)) = -1.
Proof.
  split.
  - apply (C4_node_budget RefLibm.libm fresh (clock 60000 0 0) WHITE 10
             (uci 1000 10 false) unset).
    + vm_compute. discriminate.
    + vm_compute. discriminate.
    + vm_compute. split; discriminate.
  - apply (C4_node_budget RefLibm.libm (mkTM 7 1500 9000 42 true)
             (clock 0 0 0) WHITE 10 (uci 1000 10 false) unset).
    + vm_compute. discriminate.
    + reflexivity.
Defined.

(** C5, as stated, fails: with 1 ms on the clock the optimum is 1 with
    and without pondering, so it does not grow; and with 160 ms plus
    400 ms increment for two moves (move overhead 100) the inflated
    optimum 40 is above the maximum 32. *)
Lemma C5_counterexample :
  (let on := Part000.init RefLibm.libm fresh (clock 1 0 1) WHITE 0
                          (uci 0 10 true) unset in
   let off := Part000.init RefLibm.libm fresh (clock 1 0 1) WHITE 0
                           (uci 0 10 false) unset in
   ~ (optimum (tm off) < optimum (tm on))) /\
  (let on := Part000.init RefLibm.libm fresh (clock 160 400 2) WHITE 0
                          (uci 0 100 true) unset in
   ~ (optimum (tm on) <= maximum (tm on))).
Proof.
  cbv zeta. split; intros H; vm_compute in H; try discriminate H.
  apply H; reflexivity.
Qed.

(** C5, amended: for nonzero remaining time, [init] with Ponder on
    stores [o + o / 4] (integer division; wrapped to 64 bits), where [o]
    is the optimum of the identical call with Ponder off, and the same
    maximum.  For [0 <= o <= 2^62] (in the second copy: always, the
    clock and the node budget being 64-bit values) the optimum grows
    exactly when [o >= 4], and by exactly a quarter exactly when 4
    divides [o].  In the second copy the maximum is at least [o]; it
    need not reach the inflated optimum. *)
Theorem C5_ponder_adds_a_quarter :
  forall libm t l us ply options ota,
    get (time l) us <> 0 ->
    ponder_effect
      (Timeman.init libm t l us ply (with_Ponder true options) ota)
      (Timeman.init libm t l us ply (with_Ponder false options) ota) /\
    ponder_effect
      (Part000.init libm t l us ply (with_Ponder true options) ota)
      (Part000.init libm t l us ply (with_Ponder false options) ota) /\
    optimum (tm (Part000.init libm t l us ply (with_Ponder false options) ota))
      <= maximum (tm (Part000.init libm t l us ply (with_Ponder true options) ota)) /\
    (in_int64 (get (time l) us) -> in_int64 (availableNodes t) ->
     1 <= optimum (tm (Part000.init libm t l us ply
                                    (with_Ponder false options) ota))
       <= 2 ^ 62).
Proof.
  intros libm t l us ply options ota Hne.
  rewrite !Part000_init_running, !Timeman_init_running by assumption.
  cbv zeta. rewrite !locals_with_Ponder.
  set (L := locals t l us options).
  split; [|split; [|split]].
  - eapply ponder_effect_intro; reflexivity.
  - eapply ponder_effect_intro; reflexivity.
  - unfold optimum, maximum. cbn [tm optimumTime maximumTime].
    unfold ponder_adjust. cbn [Ponder with_Ponder].
    apply Part000_bounds_ordered.
  - intros Ht Ha. unfold optimum. cbn [tm optimumTime].
    unfold ponder_adjust. cbn [Ponder with_Ponder].
    pose proof (Part000_optimum_range L us
                  (fst (Part000.scales libm L us ply (next_adjust libm L ota)))
                  (snd (Part000.scales libm L us ply (next_adjust libm L ota)))
                  (locals_time_in_int64 t l us options Ht Ha)).
    lia.
Qed.

Lemma C5_witness :
  ponder_effect
    (Timeman.init RefLibm.libm fresh (clock 60000 0 0) WHITE 10
                  (with_Ponder true (uci 0 10 false)) unset)
    (Timeman.init RefLibm.libm fresh (clock 60000 0 0) WHITE 10
                  (with_Ponder false (uci 0 10 false)) unset) /\
  ponder_effect
    (Part000.init RefLibm.libm fresh (clock 60000 0 0) WHITE 10
                  (with_Ponder true (uci 0 10 false)) unset)
    (Part000.init RefLibm.libm fresh (clock 60000 0 0) WHITE 10
                  (with_Ponder false (uci 0 10 false)) unset) /\
  optimum (tm (Part000.init RefLibm.libm fresh (clock 60000 0 0) WHITE 10
                            (with_Ponder false (uci 0 10 false)) unset))
    <= maximum (tm (Part000.init RefLibm.libm fresh (clock 60000 0 0) WHITE 10
                                 (with_Ponder true (uci 0 10 false)) unset)).
Proof.
  pose proof (C5_ponder_adds_a_quarter RefLibm.libm fresh (clock 60000 0 0)
                WHITE 10 (uci 0 10 false) unset) as H.
  destruct H as (H1 & H2 & H3 & _); [vm_compute; discriminate|].
  split; [exact H1|]. split; [exact H2 | exact H3].
Defined.

(** C6, as stated, fails: a sudden-death game that starts with 50 ms on
    the clock (move overhead 10) has [timeLeft = 5] on the first call,
    which assigns a negative value; the next call, with 40 ms, assigns
    again, and a different value. *)
Lemma C6_counterexample :
  let c1 := mkCall (clock 50 0 0) WHITE 0 (uci 0 10 false) in
  let c2 := mkCall (clock 40 0 0) WHITE 2 (uci 0 10 false) in
  loc_timeLeft (locals fresh (clock 50 0 0) WHITE (uci 0 10 false)) = 5 /\
  loc_timeLeft (locals fresh (clock 40 0 0) WHITE (uci 0 10 false)) = 1 /\
  (snd (play (Timeman.init RefLibm.libm) [c1] (fresh, unset)) <? 0)%float
    = true /\
  (snd (play (Timeman.init RefLibm.libm) [c1; c2] (fresh, unset))
     <> snd (play (Timeman.init RefLibm.libm) [c1] (fresh, unset))) /\
  (snd (play (Part000.init RefLibm.libm) [c1; c2] (fresh, unset))
     <> snd (play (Part000.init RefLibm.libm) [c1] (fresh, unset))).
Proof.
  cbv zeta. split; [vm_compute; reflexivity|]. split; [vm_compute; reflexivity|].
  split; [vm_compute; reflexivity|].
  split; intros H; apply (f_equal Prim2SF) in H;
    vm_compute in H; discriminate H.
Qed.

(** C6, amended: [init] assigns [originalTimeAdjust] exactly on a
    sudden-death call with nonzero remaining time whose incoming value
    is negative, to [0.3128 * log10(timeLeft) - 0.4354]; a call with
    moves-to-go, with no time on the clock, or with an incoming value
    that is not negative, leaves it alone, so once it is not negative it
    stays unchanged for the rest of the game.  A first value that is itself negative is
    computed again by the next sudden-death call. *)
Theorem C6_adjust_assigned_while_negative :
  forall libm,
    adjust_policy libm (Timeman.init libm) /\
    adjust_policy libm (Part000.init libm).
Proof.
  intros libm. split; apply adjust_policy_intro; intros t l us ply options ota.
  - destruct (Z.eqb_spec (get (time l) us) 0) as [E|E].
    + unfold Timeman.init. rewrite E. reflexivity.
    + rewrite Timeman_init_running by assumption. reflexivity.
  - destruct (Z.eqb_spec (get (time l) us) 0) as [E|E].
    + unfold Part000.init. rewrite E. reflexivity.
    + rewrite Part000_init_running by assumption. reflexivity.
Qed.

Lemma C6_witness :
  let c1 := mkCall (clock 60000 0 0) WHITE 10 (uci 0 10 false) in
  let c2 := mkCall (clock 58000 0 0) WHITE 12 (uci 0 10 false) in
  let s1 := play (Part000.init RefLibm.libm) [c1] (fresh, unset) in
  (snd s1 <? 0)%float = false /\
  snd (play (Part000.init RefLibm.libm) [c2] s1) = snd s1.
Proof.
  cbv zeta.
  assert (H : (snd (play (Part000.init RefLibm.libm)
                      [mkCall (clock 60000 0 0) WHITE 10 (uci 0 10 false)]
                      (fresh, unset)) <? 0)%float = false)
    by (vm_compute; reflexivity).
  split; [exact H|].
  exact (proj2 (proj2 (proj2 (proj2
            (C6_adjust_assigned_while_negative RefLibm.libm))))
           [mkCall (clock 58000 0 0) WHITE 12 (uci 0 10 false)]
           (play (Part000.init RefLibm.libm)
                 [mkCall (clock 60000 0 0) WHITE 10 (uci 0 10 false)]
                 (fresh, unset))
           H).
Defined.

(** C7, as stated, fails: [centiMTG] is not clamped above 0.  With a
    node rate of 1000 and 5 ms on the clock the first [init] of the
    game seeds 5000 nodes; once the search has consumed them, the next
    [init] with moves-to-go 1 computes [scaledTime = 0], [centiMTG = 0]
    and [movesToGo = 0.0], and divides by it. *)
Lemma C7_counterexample :
  let options := uci 1000 10 false in
  let t1 := tm (Part000.init RefLibm.libm (clear fresh) (clock 5 0 1) WHITE 0
                             options unset) in
  match advance_nodes_time 5000 t1 with
  | Some t2 =>
      let L := locals t2 (clock 4 0 1) WHITE options in
      availableNodes t1 = 5000 /\
      loc_centiMTG L = 0 /\
      (of_int (loc_centiMTG L) / 100.0)%float = 0%float /\
      ((0.88 + of_int 1 / 116.4) / (of_int (loc_centiMTG L) / 100.0))%float
        = infinity
  | None => False
  end.
Proof. vm_compute. repeat split; reflexivity. Qed.

(** C7, amended: on every call [timeLeft >= 1] and [scaleFactor <> 0],
    so the integer division and the divisions by [timeLeft] are
    guarded.  With moves-to-go given (1 .. 21474836), [centiMTG >= 5]
    whenever [scaledTime >= 1], which is the case for every positive
    remaining time when node-time emulation is off; [centiMTG] is not
    clamped above 0, and when [scaledTime] is 0 (fewer available nodes
    than the node rate) it is 0. *)
Theorem C7_divisors :
  forall t l us options,
    let L := locals t l us options in
    1 <= loc_timeLeft L /\
    loc_scaleFactor L <> 0 /\
    (1 <= movestogo l <= 21474836 -> 1 <= loc_scaledTime L ->
       5 <= loc_centiMTG L) /\
    (1 <= movestogo l <= 21474836 -> loc_scaledTime L = 0 ->
       loc_centiMTG L = 0) /\
    (nodestime options = 0 -> in_int64 (get (time l) us) ->
       loc_scaledTime L = get (time l) us).
Proof.
  intros t l us options. cbv zeta.
  split; [apply locals_timeLeft_pos|].
  split; [apply locals_scaleFactor_nonzero|].
  rewrite locals_centiMTG.
  set (s := loc_scaledTime (locals t l us options)).
  assert (Hb : 1 <= movestogo l <= 21474836 ->
               centiMTG_base (movestogo l) = Z.min (movestogo l * 100) 5000).
  { intros Hm. apply centiMTG_base_given; [lia|].
    unfold in_int32, min_int32, max_int32. lia. }
  split; [|split].
  - intros Hm Hs. unfold centiMTG_of. rewrite (Hb Hm).
    destruct (Z.ltb_spec s 1000); [|lia].
    rewrite short_clock_horizon by lia.
    assert (5 <= 5051 * s / 1000) by (apply Z.div_le_lower_bound; lia).
    lia.
  - intros Hm Hs. unfold centiMTG_of. rewrite (Hb Hm), Hs.
    cbn [Z.ltb Z.compare]. rewrite short_clock_horizon by lia.
    cbn. lia.
  - intros H0 Hr. subst s. rewrite locals_nodes_off by assumption.
    cbn [loc_scaledTime]. unfold div64. rewrite Z.quot_1_r.
    apply wrap64_small, Hr.
Qed.

Lemma C7_witness :
  let L := locals fresh (clock 300000 0 30) WHITE (uci 0 10 false) in
  1 <= loc_timeLeft L /\ loc_scaleFactor L <> 0 /\ 5 <= loc_centiMTG L /\
  loc_scaledTime L = 300000.
Proof.
  pose proof (C7_divisors fresh (clock 300000 0 30) WHITE (uci 0 10 false))
    as (H1 & H2 & H3 & _ & H5).
  cbv zeta. split; [exact H1|]. split; [exact H2|]. split.
  - apply H3; [vm_compute; split; discriminate | vm_compute; discriminate].
  - apply H5; [reflexivity | vm_compute; split; discriminate].
Defined.

(** C8, as stated, fails for a negative remaining time: with -1 ms on
    the clock [scaledTime] is -1, below 1000, and [centiMTG] is
    [int(-5.051)] = -5, which is above [scaledTime * 5.051]. *)
Lemma C8_counterexample :
  let L := locals fresh (clock (-1) 0 0) WHITE (uci 0 10 false) in
  loc_scaledTime L = -1 /\
  loc_centiMTG L = -5 /\
  ~ 1000 * loc_centiMTG L <= 5051 * loc_scaledTime L.
Proof.
  vm_compute. split; [reflexivity|]. split; [reflexivity|].
  intros H. apply H. reflexivity.
Qed.

(** C8, amended: [scaledTime] is the remaining time of the side to move
    when the node rate is zero, and the node budget divided by the node
    rate otherwise.  [centiMTG] is [min(movestogo * 100, 5000)] when
    moves-to-go is given (the product an [int]) and 5051 otherwise;
    when [scaledTime < 1000] it is the minimum of that value and
    [int(scaledTime * 5.051)].  For [0 <= scaledTime < 1000] the cast is
    the integer part of the exact product, so that
    [centiMTG <= scaledTime * 5.051]; for [-1000 < scaledTime < 0] the
    cast rounds toward zero, and with a moves-to-go that is not negative
    [centiMTG] is strictly above [scaledTime * 5.051]. *)
Theorem C8_move_horizon :
  forall t l us options,
    in_int32 (movestogo l * 100) ->
    in_int64 (get (time l) us) ->
    let L := locals t l us options in
    let rate := nodestime options in
    let budget :=
      if availableNodes t =? -1 then mul64 rate (get (time l) us)
      else availableNodes t in
    let s := if rate =? 0 then get (time l) us else div64 budget rate in
    let base :=
      if movestogo l =? 0 then 5051 else Z.min (movestogo l * 100) 5000 in
    loc_scaledTime L = s /\
    (1000 <= s -> loc_centiMTG L = base) /\
    (s < 1000 ->
       loc_centiMTG L = Z.min base (to_int32 (of_int s * 5.051)%float)) /\
    (0 <= s < 1000 ->
       loc_centiMTG L = Z.min base (5051 * s / 1000) /\
       1000 * loc_centiMTG L <= 5051 * s) /\
    (-1000 < s < 0 ->
       loc_centiMTG L = Z.min base (- (5051 * - s / 1000)) /\
       (0 <= movestogo l -> 5051 * s < 1000 * loc_centiMTG L)).
Proof.
  intros t l us options Hr Ht. cbv zeta.
  assert (Hs : loc_scaledTime (locals t l us options) =
               if nodestime options =? 0 then get (time l) us
               else div64 (if availableNodes t =? -1
                           then mul64 (nodestime options) (get (time l) us)
                           else availableNodes t)
                          (nodestime options)).
  { destruct (Z.eqb_spec (nodestime options) 0) as [E|E].
    - rewrite locals_nodes_off by assumption. cbv zeta. cbn [loc_scaledTime].
      unfold div64. rewrite Z.quot_1_r. apply wrap64_small, Ht.
    - rewrite locals_nodes_on by assumption. cbv zeta. cbn [loc_scaledTime].
      unfold nodes_time_block. cbn [snd time]. rewrite get_set_same.
      reflexivity. }
  rewrite locals_centiMTG. rewrite Hs.
  set (s := if nodestime options =? 0 then _ else _).
  split; [reflexivity|].
  assert (Hb : centiMTG_base (movestogo l) =
               if movestogo l =? 0 then 5051 else Z.min (movestogo l * 100) 5000).
  { destruct (Z.eqb_spec (movestogo l) 0) as [E|E].
    - unfold centiMTG_base. rewrite E. reflexivity.
    - apply centiMTG_base_given; assumption. }
  unfold centiMTG_of. rewrite Hb.
  split; [|split; [|split]].
  - intros H. destruct (Z.ltb_spec s 1000); [lia|reflexivity].
  - intros H. destruct (Z.ltb_spec s 1000); [reflexivity|lia].
  - intros H. destruct (Z.ltb_spec s 1000); [|lia].
    rewrite short_clock_horizon by assumption.
    split; [reflexivity|].
    pose proof (Z.mul_div_le (5051 * s) 1000 ltac:(lia)). lia.
  - intros H. destruct (Z.ltb_spec s 1000); [|lia].
    destruct (negative_clock_horizon s H) as [E Hlt].
    rewrite E. split; [reflexivity|].
    intros Hm.
    assert (0 <= 5051 * - s / 1000) by (apply Z.div_pos; lia).
    destruct (Z.eqb_spec (movestogo l) 0); lia.
Qed.

Lemma C8_witness :
  let L := locals fresh (clock 500 0 30) WHITE (uci 0 10 false) in
  let M := locals fresh (clock (-7) 0 30) WHITE (uci 0 10 false) in
  (loc_scaledTime L = 500 /\ loc_centiMTG L = 2525) /\
  (loc_scaledTime M = -7 /\ loc_centiMTG M = -35 /\
   5051 * -7 < 1000 * loc_centiMTG M).
Proof.
  cbv zeta. split.
  - pose proof (C8_move_horizon fresh (clock 500 0 30) WHITE (uci 0 10 false))
      as H.
    cbv zeta in H.
    destruct H as (Hs & _ & _ & H3 & _);
      [vm_compute; split; discriminate | vm_compute; split; discriminate |].
    split; [exact Hs|].
    apply H3. vm_compute. split; [discriminate | reflexivity].
  - pose proof (C8_move_horizon fresh (clock (-7) 0 30) WHITE (uci 0 10 false))
      as H.
    cbv zeta in H.
    destruct H as (Hs & _ & _ & _ & H4);
      [vm_compute; split; discriminate | vm_compute; split; discriminate |].
    split; [exact Hs|].
    destruct H4 as [E Hlt]; [vm_compute; split; reflexivity|].
    split; [exact E|].
    apply Hlt. vm_compute. discriminate.
Defined.

(** C9: when the node rate is zero and the remaining time is nonzero,
    [init] returns the caller's limits as they were and leaves
    [availableNodes] as it was, in both revisions. *)
Theorem C9_limits_untouched_without_nodestime :
  forall libm t l us ply options ota,
    nodestime options = 0 ->
    get (time l) us <> 0 ->
    limits (Timeman.init libm t l us ply options ota) = l /\
    availableNodes (tm (Timeman.init libm t l us ply options ota))
      = availableNodes t /\
    limits (Part000.init libm t l us ply options ota) = l /\
    availableNodes (tm (Part000.init libm t l us ply options ota))
      = availableNodes t.
Proof.
  intros libm t l us ply options ota H0 Hne.
  rewrite Timeman_init_running, Part000_init_running by assumption.
  cbv zeta. rewrite locals_nodes_off by assumption.
  repeat split; reflexivity.
Qed.

Lemma C9_witness :
  limits (Timeman.init RefLibm.libm fresh (clock 60000 1000 0) WHITE 10
                       (uci 0 10 false) unset) = clock 60000 1000 0 /\
  availableNodes (tm (Timeman.init RefLibm.libm fresh (clock 60000 1000 0)
                                   WHITE 10 (uci 0 10 false) unset))
    = availableNodes fresh /\
  limits (Part000.init RefLibm.libm fresh (clock 60000 1000 0) WHITE 10
                       (uci 0 10 false) unset) = clock 60000 1000 0 /\
  availableNodes (tm (Part000.init RefLibm.libm fresh (clock 60000 1000 0)
                                   WHITE 10 (uci 0 10 false) unset))
    = availableNodes fresh.
Proof.
  apply (C9_limits_untouched_without_nodestime RefLibm.libm fresh
           (clock 60000 1000 0) WHITE 10 (uci 0 10 false) unset).
  - reflexivity.
  - vm_compute. discriminate.
Defined.

(** C10, as stated, fails: with no time on the clock [init] returns the
    stored bounds of the previous move, so two runs with the same
    limits, side, ply, options, [availableNodes] and
    [originalTimeAdjust] differ when the stored bounds did. *)
Lemma C10_counterexample :
  let t1 := mkTM 0 100 200 (-1) false in
  let t2 := mkTM 0 300 400 (-1) false in
  availableNodes t1 = availableNodes t2 /\
  optimumTime (tm (Timeman.init RefLibm.libm t1 (clock 0 0 0) WHITE 0
                                (uci 0 10 false) unset))
    <> optimumTime (tm (Timeman.init RefLibm.libm t2 (clock 0 0 0) WHITE 0
                                     (uci 0 10 false) unset)) /\
  optimumTime (tm (Part000.init RefLibm.libm t1 (clock 0 0 0) WHITE 0
                                (uci 0 10 false) unset))
    <> optimumTime (tm (Part000.init RefLibm.libm t2 (clock 0 0 0) WHITE 0
                                     (uci 0 10 false) unset)).
Proof. vm_compute. repeat split; discriminate. Qed.

(** C10, amended: two runs of [init] with the same limits, side to move,
    ply, options, prior [availableNodes] and prior [originalTimeAdjust]
    leave the same time manager, limits and [originalTimeAdjust] when
    the remaining time is nonzero, whatever else the prior states hold;
    when it is zero they do so if the prior [optimumTime] and
    [maximumTime] agree as well. *)
Theorem C10_same_inputs_same_results :
  forall libm l us ply options ota t1 t2,
    availableNodes t1 = availableNodes t2 ->
    (get (time l) us <> 0 ->
       Timeman.init libm t1 l us ply options ota
         = Timeman.init libm t2 l us ply options ota /\
       Part000.init libm t1 l us ply options ota
         = Part000.init libm t2 l us ply options ota) /\
    (get (time l) us = 0 ->
       optimumTime t1 = optimumTime t2 -> maximumTime t1 = maximumTime t2 ->
       Timeman.init libm t1 l us ply options ota
         = Timeman.init libm t2 l us ply options ota /\
       Part000.init libm t1 l us ply options ota
         = Part000.init libm t2 l us ply options ota).
Proof.
  intros libm l us ply options ota t1 t2 Ha. split.
  - intros Hne.
    rewrite !Timeman_init_running, !Part000_init_running by assumption.
    rewrite (locals_depend_on_availableNodes t1 t2 l us options Ha).
    split; reflexivity.
  - intros H0 Ho Hm. unfold Timeman.init, Part000.init.
    rewrite H0, Ha, Ho, Hm. split; reflexivity.
Qed.

Lemma C10_witness :
  Timeman.init RefLibm.libm (mkTM 1 2 3 (-1) false) (clock 60000 0 0) WHITE 10
               (uci 0 10 false) unset
    = Timeman.init RefLibm.libm (mkTM 9 8 7 (-1) true) (clock 60000 0 0) WHITE 10
                   (uci 0 10 false) unset /\
  Part000.init RefLibm.libm (mkTM 1 2 3 (-1) false) (clock 60000 0 0) WHITE 10
               (uci 0 10 false) unset
    = Part000.init RefLibm.libm (mkTM 9 8 7 (-1) true) (clock 60000 0 0) WHITE 10
                   (uci 0 10 false) unset.
Proof.
  apply (proj1 (C10_same_inputs_same_results RefLibm.libm (clock 60000 0 0)
                  WHITE 10 (uci 0 10 false) unset
                  (mkTM 1 2 3 (-1) false) (mkTM 9 8 7 (-1) true) eq_refl)).
  vm_compute. discriminate.
Defined.

(* ================================================================== *)
(** ** Further properties of the code *)

(** *** [calculateTimeBounds] *)

Lemma to_int64_std_min a b :
  Z.min (to_int64 a) (to_int64 b) <= to_int64 (std_min a b).
Proof. unfold std_min. destruct (b <? a)%float; lia. Qed.

(** X1: whatever its arguments, [calculateTimeBounds] returns
    [1 <= optimumTime <= maximumTime]; and for a total time [t] with
    [5 <= t < 2^49] the optimum is at most [0.20 * t] and the maximum at
    most [0.30 * t]. *)
Theorem calculateTimeBounds_ordered_and_capped :
  forall timeLeft totalTime optScale maxScale moveOverhead,
    let b := Part000.calculateTimeBounds timeLeft totalTime optScale maxScale
                                         moveOverhead in
    1 <= fst b <= snd b /\
    (5 <= totalTime < 2 ^ 49 ->
       100 * fst b <= 20 * totalTime /\ 100 * snd b <= 30 * totalTime).
Proof.
  intros timeLeft totalTime optScale maxScale moveOverhead.
  unfold Part000.calculateTimeBounds. cbv zeta. cbn [fst snd].
  split; [lia|]. intros Hr.
  pose proof (share_20_upper totalTime ltac:(lia)) as H20.
  pose proof (share_30_upper totalTime ltac:(lia)) as H30.
  split; lia.
Qed.

Lemma calculateTimeBounds_witness :
  let b := Part000.calculateTimeBounds 59947 60000 0.025%float 6.5%float 10 in
  1 <= fst b <= snd b /\
  100 * fst b <= 20 * 60000 /\ 100 * snd b <= 30 * 60000.
Proof.
  pose proof (calculateTimeBounds_ordered_and_capped 59947 60000 0.025%float 6.5%float
                10)
    as H.
  cbv zeta in H. cbv zeta. destruct H as (H1 & H2).
  split; [exact H1|]. apply H2. vm_compute. split; [discriminate | reflexivity].
Defined.

(** X2: called with the values [init] has at hand, [calculateTimeBounds]
    returns the optimum that [init] stores (before the pondering
    adjustment) and a maximum that is never above the one [init] stores:
    it takes the minimum of the two converted candidates, [init]
    converts the minimum. *)
Theorem calculateTimeBounds_against_init :
  forall libm t l us ply options ota,
    get (time l) us <> 0 ->
    let L := locals t l us options in
    let sc := Part000.scales libm L us ply (next_adjust libm L ota) in
    let b := Part000.calculateTimeBounds
               (loc_timeLeft L) (get (time (loc_limits L)) us)
               (fst sc) (snd sc) (loc_moveOverhead L) in
    let r := Part000.init libm t l us ply (with_Ponder false options) ota in
    fst b = optimum (tm r) /\ snd b <= maximum (tm r).
Proof.
  intros libm t l us ply options ota Hne. cbv zeta.
  rewrite Part000_init_running by assumption. cbv zeta.
  rewrite locals_with_Ponder.
  unfold optimum, maximum. cbn [tm optimumTime maximumTime].
  unfold ponder_adjust. cbn [Ponder with_Ponder].
  unfold Part000.calculateTimeBounds, Part000.bounds, Part000.calculateBounds.
  cbv zeta. cbn [fst snd].
  set (L := locals t l us options).
  set (sc := Part000.scales libm L us ply (next_adjust libm L ota)).
  set (o := Z.max 1 (Z.min (to_int64 (fst sc * of_int (loc_timeLeft L))%float) _)).
  set (o' := Z.max 1 (Z.min _ (to_int64 (fst sc * of_int (loc_timeLeft L))%float))).
  assert (Ho : o = o') by (subst o o'; lia).
  split; [exact Ho|]. rewrite <- Ho.
  pose proof (to_int64_std_min
                (0.825179 * of_int (get (time (loc_limits L)) us)
                 - of_int (loc_moveOverhead L))%float
                (snd sc * of_int o)%float) as Hm.
  lia.
Qed.

Lemma calculateTimeBounds_against_init_witness :
  let L := locals fresh (clock 300000 0 30) WHITE (uci 0 10 false) in
  let sc := Part000.scales RefLibm.libm L WHITE 5
              (next_adjust RefLibm.libm L unset) in
  let b := Part000.calculateTimeBounds
             (loc_timeLeft L) (get (time (loc_limits L)) WHITE)
             (fst sc) (snd sc) (loc_moveOverhead L) in
  let r := Part000.init RefLibm.libm fresh (clock 300000 0 30) WHITE 5
                        (with_Ponder false (uci 0 10 false)) unset in
  fst b = optimum (tm r) /\ snd b <= maximum (tm r).
Proof.
  apply (calculateTimeBounds_against_init RefLibm.libm fresh (clock 300000 0 30)
           WHITE 5 (uci 0 10 false) unset).
  vm_compute. discriminate.
Defined.

(** *** Node-time emulation *)

Lemma get_set_other a c v : get (set a c v) (other c) = get a (other c).
Proof. destruct c; reflexivity. Qed.

Lemma locals_rewritten_in_nodes t l us options :
  nodestime options <> 0 ->
  let L := locals t l us options in
  rewritten_in_nodes t l us (nodestime options)
    (mkResult (mkTM 0 0 0 (loc_availableNodes L) true) (loc_limits L) 0%float).
Proof.
  intros Hr. cbv zeta. rewrite locals_nodes_on by assumption. cbv zeta.
  unfold rewritten_in_nodes, nodes_time_block. cbv zeta.
  cbn [tm limits availableNodes loc_availableNodes loc_limits fst snd
       time inc npmsec movestogo startTime].
  rewrite !get_set_same, !get_set_other. repeat split; reflexivity.
Qed.

(** X3: with a nonzero node rate and a nonzero clock, [init] (either
    revision) leaves the limits rewritten in node units: the clock of
    the side to move is the node budget (seeded as rate times the clock
    only while it is -1, otherwise the budget as it stands), its
    increment is multiplied by the rate, [npmsec] is the rate; the other
    side's clock and increment, moves-to-go and the start time are not
    touched. *)
Theorem init_rewrites_limits_in_nodes :
  forall libm t l us ply options ota,
    nodestime options <> 0 ->
    get (time l) us <> 0 ->
    rewritten_in_nodes t l us (nodestime options)
      (Timeman.init libm t l us ply options ota) /\
    rewritten_in_nodes t l us (nodestime options)
      (Part000.init libm t l us ply options ota).
Proof.
  intros libm t l us ply options ota Hr Hne.
  pose proof (locals_rewritten_in_nodes t l us options Hr) as H.
  rewrite Timeman_init_running, Part000_init_running by assumption.
  split; exact H.
Qed.

Lemma init_rewrites_limits_in_nodes_witness :
  rewritten_in_nodes (mkTM 0 0 0 250000 true) (clock 60000 1000 0) WHITE 1000
    (Timeman.init RefLibm.libm (mkTM 0 0 0 250000 true) (clock 60000 1000 0)
                  WHITE 12 (uci 1000 10 false) unset) /\
  rewritten_in_nodes (mkTM 0 0 0 250000 true) (clock 60000 1000 0) WHITE 1000
    (Part000.init RefLibm.libm (mkTM 0 0 0 250000 true) (clock 60000 1000 0)
                  WHITE 12 (uci 1000 10 false) unset).
Proof.
  apply (init_rewrites_limits_in_nodes RefLibm.libm (mkTM 0 0 0 250000 true)
           (clock 60000 1000 0) WHITE 12 (uci 1000 10 false) unset);
    vm_compute; discriminate.
Defined.

Lemma nodes_spent_nonneg ns : Forall node_count ns -> 0 <= nodes_spent ns.
Proof.
  unfold nodes_spent.
  induction 1 as [|x xs Hx _ IHx]; cbn [fold_right]; [lia|].
  unfold node_count in Hx. lia.
Qed.

Lemma advance_run_sum :
  forall ns t,
    useNodesTime t = true ->
    node_count (availableNodes t) ->
    Forall node_count ns ->
    advance_run ns t =
    Some (mkTM (tm_startTime t) (optimumTime t) (maximumTime t)
               (Z.max 0 (availableNodes t - nodes_spent ns)) true).
Proof.
  induction ns as [|n ns IH]; intros t Hon Ha Hns.
  - cbn. destruct t as [st o m a u]. cbn in *. subst u.
    unfold node_count in Ha. f_equal. f_equal. lia.
  - inversion Hns as [|n' ns' Hn Hns']; subst.
    cbn [advance_run nodes_spent fold_right].
    rewrite advance_nodes_time_on by assumption.
    unfold node_count, max_int64 in Ha, Hn.
    assert (Hw : sub64 (availableNodes t) n = availableNodes t - n).
    { apply wrap64_small. unfold in_int64, min_int64, max_int64. lia. }
    rewrite Hw.
    pose proof (nodes_spent_nonneg ns Hns') as Hs.
    rewrite IH; cbn [useNodesTime availableNodes tm_startTime optimumTime
                     maximumTime];
      [ | reflexivity | unfold node_count, max_int64; lia | assumption ].
    fold (nodes_spent ns). f_equal. f_equal. lia.
Qed.

(** X4: a run of [advance_nodes_time] calls with node counts
    [n1, ..., nk] on a budget [a >= 0] goes through and leaves
    [max(0, a - (n1 + ... + nk))]: the calls compose to one saturating
    subtraction, the budget never grows, and nothing else in the time
    manager changes. *)
Theorem advance_run_saturates :
  forall ns t,
    useNodesTime t = true ->
    node_count (availableNodes t) ->
    Forall node_count ns ->
    exists s,
      advance_run ns t = Some s /\
      availableNodes s = Z.max 0 (availableNodes t - nodes_spent ns) /\
      0 <= availableNodes s <= availableNodes t /\
      optimum s = optimum t /\ maximum s = maximum t /\
      tm_startTime s = tm_startTime t /\ useNodesTime s = useNodesTime t.
Proof.
  intros ns t Hon Ha Hns.
  pose proof (nodes_spent_nonneg ns Hns) as Hs.
  eexists. split; [apply advance_run_sum; assumption|].
  cbn [availableNodes optimum maximum optimumTime maximumTime tm_startTime
       useNodesTime].
  unfold node_count in Ha. unfold optimum, maximum. cbn [optimumTime maximumTime].
  repeat split; try lia. symmetry. exact Hon.
Qed.

Lemma advance_run_saturates_witness :
  exists s,
    advance_run [1000; 2500; 70000] (mkTM 5 1500 9000 60000 true) = Some s /\
    availableNodes s = 0.
Proof.
  destruct (advance_run_saturates [1000; 2500; 70000]
              (mkTM 5 1500 9000 60000 true)) as (s & Hs & Ha & _).
  - reflexivity.
  - vm_compute. split; discriminate.
  - repeat constructor; vm_compute; discriminate.
  - exists s. split; [exact Hs|]. rewrite Ha. vm_compute. reflexivity.
Defined.

(** X5: the assertion of [advance_nodes_time] after [init].  After
    [init] of [src/timeman.cpp] the call goes through exactly when the
    node rate is nonzero; after [init] of the second copy exactly when
    the node rate and the clock of the side to move are both nonzero. *)
Theorem advance_after_init :
  forall libm t l us ply options ota n,
    (advance_nodes_time n (tm (Timeman.init libm t l us ply options ota)) <> None
       <-> nodestime options <> 0) /\
    (advance_nodes_time n (tm (Part000.init libm t l us ply options ota)) <> None
       <-> nodestime options <> 0 /\ get (time l) us <> 0).
Proof.
  intros libm t l us ply options ota n.
  destruct (Z.eq_dec (get (time l) us) 0) as [E0|Hne].
  - unfold Timeman.init, Part000.init. rewrite E0. cbn [Z.eqb]. cbv zeta.
    unfold advance_nodes_time. cbn [tm useNodesTime].
    destruct (Z.eqb_spec (nodestime options) 0) as [E|E]; cbn [negb];
      split; split; intros H; try congruence; try tauto; try discriminate.
  - rewrite Timeman_init_running, Part000_init_running by assumption.
    cbv zeta. unfold advance_nodes_time. cbn [tm useNodesTime].
    destruct (Z.eq_dec (nodestime options) 0) as [E|E].
    + rewrite locals_nodes_off by assumption. cbn [loc_useNodesTime].
      rewrite E. cbn [Z.eqb negb]. split; split; intros H; tauto.
    + rewrite locals_nodes_on by assumption. cbv zeta. cbn [loc_useNodesTime].
      destruct (Z.eqb_spec (nodestime options) 0) as [E'|_]; [contradiction|].
      cbn [negb]. split; split; intros H; try discriminate; tauto.
Qed.

(** *** The horizon-adjusted budget [timeLeft] *)

Lemma centiMTG_of_range mtg s :
  0 <= mtg <= 21474836 -> 1 <= s -> 5 <= centiMTG_of mtg s <= 5051.
Proof.
  intros Hm Hs. unfold centiMTG_of.
  assert (Hb : 100 <= centiMTG_base mtg <= 5051).
  { destruct (Z.eq_dec mtg 0) as [->|Hne]; [cbn; lia|].
    rewrite centiMTG_base_given by
      (try assumption; unfold in_int32, min_int32, max_int32; lia).
    lia. }
  destruct (Z.ltb_spec s 1000); [|lia].
  rewrite short_clock_horizon by lia.
  assert (5 <= 5051 * s / 1000) by (apply Z.div_le_lower_bound; lia).
  lia.
Qed.

(** X6: for a real clock (node-time emulation off, clock and increment
    up to [2^50], move overhead up to [2^40], moves-to-go up to
    21474836) none of the integer operations behind [timeLeft] wraps:
    [centiMTG] lies in 5 .. 5051 and [timeLeft] is
    [max(1, time + (inc * (centiMTG - 100) - overhead * (200 + centiMTG)) / 100)]
    over the integers.  It never exceeds the clock plus fifty
    increments; without increment it never exceeds the clock. *)
Theorem timeLeft_without_wrap :
  forall t l us options,
    nodestime options = 0 ->
    1 <= get (time l) us <= 2 ^ 50 ->
    0 <= get (inc l) us <= 2 ^ 50 ->
    0 <= Move_Overhead options <= 2 ^ 40 ->
    0 <= movestogo l <= 21474836 ->
    let L := locals t l us options in
    let c := loc_centiMTG L in
    5 <= c <= 5051 /\
    loc_timeLeft L =
      Z.max 1 (get (time l) us
               + Z.quot (get (inc l) us * (c - 100)
                         - Move_Overhead options * (200 + c)) 100) /\
    loc_timeLeft L <= get (time l) us + 50 * get (inc l) us.
Proof.
  intros t l us options H0 Ht Hi Ho Hm. cbv zeta.
  rewrite locals_nodes_off by assumption. cbv zeta.
  cbn [loc_centiMTG loc_timeLeft].
  assert (Hs : div64 (get (time l) us) 1 = get (time l) us).
  { unfold div64. rewrite Z.quot_1_r. apply wrap64_small.
    unfold in_int64, min_int64, max_int64. lia. }
  rewrite Hs.
  pose proof (centiMTG_of_range (movestogo l) (get (time l) us) Hm ltac:(lia))
    as Hc.
  set (c := centiMTG_of (movestogo l) (get (time l) us)) in *.
  set (tm_ := get (time l) us) in *.
  set (ic := get (inc l) us) in *.
  set (oh := Move_Overhead options) in *.
  split; [exact Hc|].
  unfold timeLeft_of. fold tm_ ic oh.
  assert (E1 : sub32 c 100 = c - 100)
    by (apply wrap32_small; unfold in_int32, min_int32, max_int32; lia).
  assert (E2 : add32 200 c = 200 + c)
    by (apply wrap32_small; unfold in_int32, min_int32, max_int32; lia).
  rewrite E1, E2.
  assert (B1 : ic * (-95) <= ic * (c - 100) <= ic * 4951)
    by (split; apply Z.mul_le_mono_nonneg_l; lia).
  assert (B2 : oh * 0 <= oh * (200 + c) <= oh * 5251)
    by (split; apply Z.mul_le_mono_nonneg_l; lia).
  assert (E3 : mul64 ic (c - 100) = ic * (c - 100))
    by (apply wrap64_small; unfold in_int64, min_int64, max_int64; lia).
  assert (E4 : mul64 oh (200 + c) = oh * (200 + c))
    by (apply wrap64_small; unfold in_int64, min_int64, max_int64; lia).
  rewrite E3, E4.
  set (X := ic * (c - 100) - oh * (200 + c)) in *.
  assert (E5 : sub64 (ic * (c - 100)) (oh * (200 + c)) = X)
    by (apply wrap64_small; unfold in_int64, min_int64, max_int64; subst X; lia).
  rewrite E5.
  assert (BX : - 2 ^ 58 <= X <= 4951 * ic) by (subst X; lia).
  assert (BQ : - 2 ^ 58 <= Z.quot X 100 <= 50 * ic).
  { destruct (Z_le_gt_dec 0 X) as [Hp|Hn].
    - rewrite Z.quot_div_nonneg by lia.
      split; [pose proof (Z.div_pos X 100 Hp ltac:(lia)); lia|].
      apply Z.div_le_upper_bound; lia.
    - replace X with (- (- X)) by lia. rewrite Z.quot_opp_l by lia.
      rewrite Z.quot_div_nonneg by lia.
      pose proof (Z.div_pos (- X) 100 ltac:(lia) ltac:(lia)).
      assert (- X / 100 <= 2 ^ 58) by (apply Z.div_le_upper_bound; lia).
      lia. }
  assert (E6 : div64 X 100 = Z.quot X 100)
    by (apply wrap64_small; unfold in_int64, min_int64, max_int64; lia).
  rewrite E6.
  assert (E7 : add64 tm_ (Z.quot X 100) = tm_ + Z.quot X 100)
    by (apply wrap64_small; unfold in_int64, min_int64, max_int64; lia).
  rewrite E7. split; [reflexivity|]. lia.
Qed.

Lemma timeLeft_without_wrap_witness :
  let L := locals fresh (clock 60000 1000 0) WHITE (uci 0 10 false) in
  loc_centiMTG L = 5051 /\
  loc_timeLeft L = 60000 + (1000 * 4951 - 10 * 5251) / 100 /\
  loc_timeLeft L <= 60000 + 50 * 1000.
Proof.
  pose proof (timeLeft_without_wrap fresh (clock 60000 1000 0) WHITE
                (uci 0 10 false) eq_refl) as H.
  cbv zeta in H. cbv zeta.
  destruct H as (_ & H2 & H3); try (vm_compute; split; discriminate).
  split; [vm_compute; reflexivity|]. split; [|exact H3].
  rewrite H2. vm_compute. reflexivity.
Defined.

(** *** What the two revisions share, and what [init] does not read *)

(** X7: with moves-to-go given, [init] (either revision) never consults
    the C library or the incoming [originalTimeAdjust]: the time manager
    and the limits it leaves are the same for any two libraries and any
    two incoming values. *)
Theorem movestogo_ignores_libm_and_adjust :
  forall libm1 libm2 t l us ply options ota1 ota2,
    movestogo l <> 0 ->
    tm (Timeman.init libm1 t l us ply options ota1)
      = tm (Timeman.init libm2 t l us ply options ota2) /\
    limits (Timeman.init libm1 t l us ply options ota1)
      = limits (Timeman.init libm2 t l us ply options ota2) /\
    tm (Part000.init libm1 t l us ply options ota1)
      = tm (Part000.init libm2 t l us ply options ota2) /\
    limits (Part000.init libm1 t l us ply options ota1)
      = limits (Part000.init libm2 t l us ply options ota2).
Proof.
  intros libm1 libm2 t l us ply options ota1 ota2 Hm.
  destruct (Z.eq_dec (get (time l) us) 0) as [E0|Hne].
  - unfold Timeman.init, Part000.init. rewrite E0. cbn [Z.eqb]. cbv zeta.
    repeat split; reflexivity.
  - rewrite !Timeman_init_running, !Part000_init_running by assumption.
    cbv zeta. unfold Timeman.scales, Part000.scales, next_adjust.
    rewrite !locals_movestogo.
    destruct (Z.eqb_spec (movestogo l) 0) as [E|_]; [contradiction|].
    repeat split; reflexivity.
Qed.

Lemma movestogo_ignores_libm_and_adjust_witness :
  tm (Part000.init RefLibm.libm fresh (clock 300000 0 30) WHITE 5
                   (uci 0 10 false) unset)
    = tm (Part000.init (mkLibm (fun x => x) (fun x _ => x)) fresh
                       (clock 300000 0 30) WHITE 5 (uci 0 10 false) 1%float).
Proof.
  exact (proj1 (proj2 (proj2
           (movestogo_ignores_libm_and_adjust
              RefLibm.libm (mkLibm (fun x => x) (fun x _ => x)) fresh
              (clock 300000 0 30) WHITE 5 (uci 0 10 false) unset 1%float
              ltac:(vm_compute; discriminate))))).
Defined.

(** X8: on every call the two revisions leave the same limits, the same
    [originalTimeAdjust], the same node budget and the same start time,
    which is the start time of the limits; with a nonzero clock they
    also agree on [useNodesTime].  They differ only in the two bounds
    (and in [useNodesTime] when there is no time control). *)
Theorem revisions_share_bookkeeping :
  forall libm t l us ply options ota,
    let a := Timeman.init libm t l us ply options ota in
    let b := Part000.init libm t l us ply options ota in
    same_bookkeeping a b /\
    tm_startTime (tm a) = startTime l /\
    (get (time l) us <> 0 ->
       useNodesTime (tm a) = useNodesTime (tm b) /\
       useNodesTime (tm a) = negb (nodestime options =? 0)).
Proof.
  intros libm t l us ply options ota. cbv zeta. unfold same_bookkeeping.
  destruct (Z.eq_dec (get (time l) us) 0) as [E0|Hne].
  - unfold Timeman.init, Part000.init. rewrite E0. cbn [Z.eqb]. cbv zeta.
    cbn [tm limits originalTimeAdjust availableNodes tm_startTime].
    split; [repeat split; reflexivity|]. split; [reflexivity|].
    intros H. contradiction.
  - rewrite Timeman_init_running, Part000_init_running by assumption.
    cbv zeta.
    cbn [tm limits originalTimeAdjust availableNodes tm_startTime useNodesTime].
    split; [repeat split; reflexivity|]. split; [reflexivity|].
    intros _. split; [|reflexivity].
    destruct (Z.eq_dec (nodestime options) 0) as [E|E].
    + rewrite locals_nodes_off by assumption. rewrite E. reflexivity.
    + rewrite locals_nodes_on by assumption. cbv zeta. cbn [loc_useNodesTime].
      destruct (Z.eqb_spec (nodestime options) 0); [contradiction|reflexivity].
Qed.

(** X9: with moves-to-go given and Ponder off, the optimum of the second
    copy is the optimum of [src/timeman.cpp] clamped to
    [1 .. TimePoint(0.20 * time)] (the floor of 1 applied last). *)
Theorem movestogo_optimum_is_clamped_optimum :
  forall libm t l us ply options ota,
    movestogo l <> 0 ->
    get (time l) us <> 0 ->
    let a := Timeman.init libm t l us ply (with_Ponder false options) ota in
    let b := Part000.init libm t l us ply (with_Ponder false options) ota in
    optimum (tm b) =
    Z.max 1 (Z.min (to_int64 (0.20 * of_int (get (time (limits b)) us))%float)
                   (optimum (tm a))).
Proof.
  intros libm t l us ply options ota Hm Hne. cbv zeta.
  rewrite Timeman_init_running, Part000_init_running by assumption.
  cbv zeta. rewrite locals_with_Ponder.
  unfold optimum. cbn [tm limits optimumTime].
  unfold ponder_adjust. cbn [Ponder with_Ponder].
  unfold Timeman.scales, Part000.scales.
  rewrite locals_movestogo.
  destruct (Z.eqb_spec (movestogo l) 0) as [E|_]; [contradiction|].
  reflexivity.
Qed.

Lemma movestogo_optimum_is_clamped_optimum_witness :
  let a := Timeman.init RefLibm.libm fresh (clock 60000 0 1) WHITE 0
                        (with_Ponder false (uci 0 10 false)) unset in
  let b := Part000.init RefLibm.libm fresh (clock 60000 0 1) WHITE 0
                        (with_Ponder false (uci 0 10 false)) unset in
  optimum (tm a) = 52773 /\ optimum (tm b) = 12000 /\
  optimum (tm b) =
  Z.max 1 (Z.min (to_int64 (0.20 * of_int (get (time (limits b)) WHITE))%float)
                 (optimum (tm a))).
Proof.
  cbv zeta. split; [vm_compute; reflexivity|]. split; [vm_compute; reflexivity|].
  apply (movestogo_optimum_is_clamped_optimum RefLibm.libm fresh
           (clock 60000 0 1) WHITE 0 (uci 0 10 false) unset);
    vm_compute; discriminate.
Defined.

Lemma revisions_share_bookkeeping_witness :
  let a := Timeman.init RefLibm.libm fresh (clock 60000 1000 0) WHITE 10
                        (uci 1000 10 false) unset in
  let b := Part000.init RefLibm.libm fresh (clock 60000 1000 0) WHITE 10
                        (uci 1000 10 false) unset in
  same_bookkeeping a b /\ useNodesTime (tm a) = useNodesTime (tm b).
Proof.
  pose proof (revisions_share_bookkeeping RefLibm.libm fresh
                (clock 60000 1000 0) WHITE 10 (uci 1000 10 false) unset) as H.
  cbv zeta in H. cbv zeta. destruct H as (H1 & _ & H3).
  split; [exact H1|]. apply H3. vm_compute. discriminate.
Defined.

(** *** The sudden-death constants *)

Lemma ltb_leb x y : (x <? y)%float = true -> (x <=? y)%float = true.
Proof.
  rewrite FloatAxioms.ltb_spec, FloatAxioms.leb_spec. unfold SFltb, SFleb.
  destruct (SFcompare (Prim2SF x) (Prim2SF y)) as [[| |]|];
    intros H; try reflexivity; discriminate H.
Qed.

Lemma std_min_capped c y :
  (c <=? c)%float = true -> (std_min c y <=? c)%float = true.
Proof.
  intros Hc. unfold std_min. destruct (y <? c)%float eqn:E; [|exact Hc].
  apply ltb_leb, E.
Qed.

(** X10: whatever the C library returns (a NaN or an infinity
    included), the sudden-death [maxScale] of both revisions is a number
    and at most 6.67704; the constructor of [TimeConstants] never
    returns an [optConstant] above 0.00508017 nor a [maxConstant] below
    2.94761. *)
Theorem sudden_death_constants_clamped :
  forall libm L us ply ota logTimeInSec timeLeft totalTime,
    let tc := Timeman.TimeConstants_new logTimeInSec timeLeft totalTime in
    (Timeman.MAX_OPT_CONSTANT <? Timeman.optConstant tc)%float = false /\
    (Timeman.maxConstant tc <? Timeman.MIN_MAX_CONSTANT)%float = false /\
    (snd (Timeman.scales_sudden_death libm L us ply ota) <=? 6.67704)%float
      = true /\
    (snd (Part000.scales_sudden_death libm L us ply ota) <=? 6.67704)%float
      = true.
Proof.
  intros libm L us ply ota x timeLeft totalTime. cbv zeta.
  unfold Timeman.TimeConstants_new.
  cbn [Timeman.optConstant Timeman.maxConstant].
  split; [|split; [|split]].
  - unfold std_min.
    destruct (Timeman.MAX_OPT_CONSTANT
              <? Timeman.BASE_OPT_CONSTANT + Timeman.OPT_CONSTANT_FACTOR * x)%float
      eqn:E; [reflexivity|exact E].
  - unfold std_max.
    destruct (Timeman.BASE_MAX_CONSTANT + Timeman.MAX_CONSTANT_FACTOR * x
              <? Timeman.MIN_MAX_CONSTANT)%float
      eqn:E; [reflexivity|exact E].
  - unfold Timeman.scales_sudden_death. cbv zeta. cbn [snd].
    apply std_min_capped. reflexivity.
  - unfold Part000.scales_sudden_death. cbv zeta. cbn [snd].
    apply std_min_capped. reflexivity.
Qed.

(** *** The node budget across the moves of a game *)

Lemma locals_budget_kept t l us options :
  nodestime options <> 0 -> 0 <= availableNodes t ->
  loc_availableNodes (locals t l us options) = availableNodes t /\
  get (time (loc_limits (locals t l us options))) us = availableNodes t.
Proof.
  intros Hr Ha.
  destruct (locals_rewritten_in_nodes t l us options Hr) as (H1 & H2 & _).
  cbn [tm limits availableNodes] in H1, H2.
  destruct (Z.eqb_spec (availableNodes t) (-1)) as [E|_]; [lia|].
  split; assumption.
Qed.

Lemma locals_budget_seeded t l us options :
  nodestime options <> 0 ->
  in_int64 (nodestime options * get (time l) us) ->
  loc_availableNodes (locals (clear t) l us options)
    = nodestime options * get (time l) us.
Proof.
  intros Hr Hi.
  destruct (locals_rewritten_in_nodes (clear t) l us options Hr) as (H1 & _).
  cbn [tm availableNodes clear Z.eqb Pos.eqb] in H1. rewrite H1.
  apply wrap64_small, Hi.
Qed.

Lemma unused_budget_seen_intro (init : InitFn) t1 ns l2 us ply2 options ota2 a :
  useNodesTime t1 = true -> availableNodes t1 = a -> node_count a ->
  Forall node_count ns ->
  (forall t, 0 <= availableNodes t ->
     get (time (limits (init t l2 us ply2 options ota2))) us = availableNodes t /\
     availableNodes (tm (init t l2 us ply2 options ota2)) = availableNodes t) ->
  unused_budget_seen init t1 ns l2 us ply2 options ota2
    (Z.max 0 (a - nodes_spent ns)).
Proof.
  intros Hon Ha Hc Hns Hinit. subst a.
  eexists. split; [apply advance_run_sum; assumption|].
  apply Hinit. cbn [availableNodes]. lia.
Qed.

(** X11: under node-time emulation the clock that the second move of a
    game sees is the node budget the first move left unused, whatever
    clock the caller passes: after [clear], [init] with clock [time1], a
    run of [advance_nodes_time] calls and a second [init], both
    [limits.time[us]] and [availableNodes] are
    [max(0, rate * time1 - nodes spent)]. *)
Theorem second_move_sees_unused_budget :
  forall libm t l1 l2 us ply1 ply2 options ota1 ota2 ns,
    0 < nodestime options ->
    0 < get (time l1) us ->
    nodestime options * get (time l1) us <= max_int64 ->
    Forall node_count ns ->
    get (time l2) us <> 0 ->
    let left :=
      Z.max 0 (nodestime options * get (time l1) us - nodes_spent ns) in
    unused_budget_seen (Timeman.init libm)
      (tm (Timeman.init libm (clear t) l1 us ply1 options ota1))
      ns l2 us ply2 options ota2 left /\
    unused_budget_seen (Part000.init libm)
      (tm (Part000.init libm (clear t) l1 us ply1 options ota1))
      ns l2 us ply2 options ota2 left.
Proof.
  intros libm t l1 l2 us ply1 ply2 options ota1 ota2 ns Hr Ht Hfit Hns Hne2.
  cbv zeta.
  assert (Hrate : nodestime options <> 0) by lia.
  assert (Hne1 : get (time l1) us <> 0) by lia.
  assert (Hin : in_int64 (nodestime options * get (time l1) us))
    by (unfold in_int64, min_int64, max_int64 in *; nia).
  assert (Hcount : node_count (nodestime options * get (time l1) us))
    by (unfold node_count; split; [nia | assumption]).
  pose proof (locals_budget_seeded t l1 us options Hrate Hin) as Hseed.
  split; apply unused_budget_seen_intro; try assumption.
  - rewrite Timeman_init_running by assumption. cbv zeta. cbn [tm useNodesTime].
    destruct (Z.eqb_spec (nodestime options) 0); [contradiction|reflexivity].
  - rewrite Timeman_init_running by assumption. cbv zeta.
    cbn [tm availableNodes]. exact Hseed.
  - intros t' Ha. rewrite Timeman_init_running by assumption. cbv zeta.
    cbn [tm limits availableNodes].
    destruct (locals_budget_kept t' l2 us options Hrate Ha). split; assumption.
  - rewrite Part000_init_running by assumption. cbv zeta. cbn [tm useNodesTime].
    rewrite locals_nodes_on by assumption. reflexivity.
  - rewrite Part000_init_running by assumption. cbv zeta.
    cbn [tm availableNodes]. exact Hseed.
  - intros t' Ha. rewrite Part000_init_running by assumption. cbv zeta.
    cbn [tm limits availableNodes].
    destruct (locals_budget_kept t' l2 us options Hrate Ha). split; assumption.
Qed.

Lemma second_move_sees_unused_budget_witness :
  unused_budget_seen (Part000.init RefLibm.libm)
    (tm (Part000.init RefLibm.libm (clear fresh) (clock 60000 0 0) WHITE 10
                      (uci 1000 10 false) unset))
    [1500000; 250000] (clock 58000 0 0) WHITE 12 (uci 1000 10 false) unset
    58250000.
Proof.
  exact (proj2 (second_move_sees_unused_budget RefLibm.libm fresh
                  (clock 60000 0 0) (clock 58000 0 0) WHITE 10 12
                  (uci 1000 10 false) unset unset [1500000; 250000]
                  ltac:(reflexivity) ltac:(reflexivity)
                  ltac:(vm_compute; discriminate)
                  ltac:(repeat constructor; vm_compute; discriminate)
                  ltac:(vm_compute; discriminate))).
Defined.

(** X12: [init] seeds the node budget only while it is -1.  A call of
    [advance_nodes_time] between [clear] and the first [init] of the
    game turns the -1 into 0, so that [init] does not seed: the game
    starts with an empty budget and a clock of 0 in the limits. *)
Theorem advance_before_first_init_empties_budget :
  forall libm t l us ply options ota n,
    useNodesTime t = true ->
    node_count n ->
    nodestime options <> 0 ->
    get (time l) us <> 0 ->
    exists s,
      advance_nodes_time n (clear t) = Some s /\
      availableNodes s = 0 /\
      availableNodes (tm (Timeman.init libm s l us ply options ota)) = 0 /\
      get (time (limits (Timeman.init libm s l us ply options ota))) us = 0 /\
      availableNodes (tm (Part000.init libm s l us ply options ota)) = 0 /\
      get (time (limits (Part000.init libm s l us ply options ota))) us = 0.
Proof.
  intros libm t l us ply options ota n Hon Hn Hr Hne.
  rewrite advance_nodes_time_on by exact Hon.
  eexists. split; [reflexivity|].
  cbn [availableNodes clear].
  assert (E : Z.max 0 (sub64 (-1) n) = 0).
  { unfold node_count, max_int64 in Hn. unfold sub64.
    rewrite wrap64_small by (unfold in_int64, min_int64, max_int64; lia). lia. }
  rewrite E. split; [reflexivity|].
  rewrite Timeman_init_running, Part000_init_running by assumption. cbv zeta.
  cbn [tm limits availableNodes].
  set (s := mkTM _ _ _ 0 true).
  destruct (locals_budget_kept s l us options Hr ltac:(cbn; lia)) as (H1 & H2).
  cbn [availableNodes s] in H1, H2. subst s. cbn [availableNodes] in H1, H2.
  repeat split; assumption.
Qed.

Lemma advance_before_first_init_empties_budget_witness :
  exists s,
    advance_nodes_time 0 (clear (mkTM 0 0 0 500 true)) = Some s /\
    availableNodes s = 0 /\
    availableNodes (tm (Part000.init RefLibm.libm s (clock 60000 0 0) WHITE 10
                                     (uci 1000 10 false) unset)) = 0.
Proof.
  destruct (advance_before_first_init_empties_budget RefLibm.libm
              (mkTM 0 0 0 500 true) (clock 60000 0 0) WHITE 10
              (uci 1000 10 false) unset 0)
    as (s & H1 & H2 & _ & _ & H5 & _).
  - reflexivity.
  - vm_compute. split; discriminate.
  - vm_compute. discriminate.
  - vm_compute. discriminate.
  - exists s. repeat split; assumption.
Defined.

(** *** Scaling to node units and back, and the horizon *)

(** X13: on the first [init] of a game under node-time emulation the
    clock is multiplied by the node rate and [scaledTime] divides it
    back: [scaledTime] is the caller's clock in time units, so the
    short-clock test and the calibration see real time. *)
Theorem first_init_scaledTime_is_clock :
  forall t l us options,
    nodestime options <> 0 ->
    in_int64 (nodestime options * get (time l) us) ->
    in_int64 (get (time l) us) ->
    let L := locals (clear t) l us options in
    get (time (loc_limits L)) us = nodestime options * get (time l) us /\
    loc_scaleFactor L = nodestime options /\
    loc_scaledTime L = get (time l) us.
Proof.
  intros t l us options Hr Hp Ht. cbv zeta.
  pose proof (locals_budget_seeded t l us options Hr Hp) as Hseed.
  destruct (locals_rewritten_in_nodes (clear t) l us options Hr) as (H1 & H2 & _).
  cbn [tm limits availableNodes] in H1, H2.
  assert (Htime : get (time (loc_limits (locals (clear t) l us options))) us
                  = nodestime options * get (time l) us).
  { rewrite H2, <- H1. exact Hseed. }
  split; [exact Htime|].
  revert Htime. rewrite locals_nodes_on by assumption. cbv zeta.
  cbn [loc_limits loc_scaleFactor loc_scaledTime]. intros Htime.
  split; [reflexivity|].
  rewrite Htime. unfold div64.
  rewrite Z.mul_comm, Z.quot_mul by assumption.
  apply wrap64_small, Ht.
Qed.

Lemma first_init_scaledTime_is_clock_witness :
  let L := locals (clear fresh) (clock 60000 0 0) WHITE (uci 1000 10 false) in
  get (time (loc_limits L)) WHITE = 60000000 /\
  loc_scaleFactor L = 1000 /\
  loc_scaledTime L = 60000.
Proof.
  apply (first_init_scaledTime_is_clock fresh (clock 60000 0 0) WHITE
           (uci 1000 10 false)).
  - vm_compute. discriminate.
  - vm_compute. split; discriminate.
  - vm_compute. split; discriminate.
Defined.

(** X14: the move horizon never shrinks when the clock grows: for
    [0 <= s1 <= s2], [centiMTG] at [scaledTime = s1] is at most
    [centiMTG] at [scaledTime = s2], and it never exceeds 5051 (5000
    when moves-to-go is given and [movestogo * 100] fits an [int]). *)
Theorem centiMTG_monotone :
  forall mtg s1 s2,
    0 <= s1 <= s2 ->
    centiMTG_of mtg s1 <= centiMTG_of mtg s2 /\
    centiMTG_of mtg s2 <= centiMTG_base mtg /\
    centiMTG_base mtg <= 5051 /\
    (mtg <> 0 -> centiMTG_of mtg s2 <= 5000).
Proof.
  intros mtg s1 s2 Hs.
  assert (Hb : centiMTG_base mtg <= 5051 /\ (mtg <> 0 -> centiMTG_base mtg <= 5000)).
  { unfold centiMTG_base. destruct (Z.eqb_spec mtg 0); split; intros; lia. }
  unfold centiMTG_of.
  destruct (Z.ltb_spec s1 1000) as [H1|H1]; destruct (Z.ltb_spec s2 1000) as [H2|H2];
    try lia;
    rewrite ?short_clock_horizon by lia.
  assert (5051 * s1 / 1000 <= 5051 * s2 / 1000)
    by (apply Z.div_le_mono; lia).
  destruct Hb as (Hb1 & Hb2). repeat split; intros; lia.
Qed.

Lemma centiMTG_monotone_witness :
  centiMTG_of 0 500 = 2525 /\ centiMTG_of 0 999 = 5045 /\
  centiMTG_of 0 500 <= centiMTG_of 0 999.
Proof.
  split; [vm_compute; reflexivity|]. split; [vm_compute; reflexivity|].
  apply (centiMTG_monotone 0 500 999). lia.
Defined.
